(** * ProduSum-AI: the cache, the sanitizer, the error table and the two
    orchestrators, embedded from the Python sources

    Every module below is named after the source file it embeds
    ([utils/validation.py], [utils/cache.py], [utils/error_handler.py],
    [utils/ai_service.py], [app.py]).  Definitions come first, the
    theorems about them follow in the second half of the file. *)

From Stdlib Require Import ZArith NArith QArith String Ascii List Lia.
From Stdlib Require Import Floats Uint63.
From stdpp Require Import base list gmap sorting lexico.

Local Open Scope N_scope.

(** ** Python values

    A Python [str] is a sequence of Unicode code points; it is modelled as
    a list of their numbers, so that [\s], [IGNORECASE] and [str.lower]
    can speak about characters outside ASCII. *)

Module PyStr.

Abbreviation pystr := (list N).

(** The code points of a literal of this file (all of them are ASCII). *)
Fixpoint py (s : string) : pystr :=
  match s with
  | EmptyString => []
  | String a s' => N_of_ascii a :: py s'
  end.
Global Arguments py : simpl never.

Definition str_eqb (a b : pystr) : bool := bool_decide (a = b).

(** [bool(s)]: a string is truthy when it is not empty. *)
Definition truthy (s : pystr) : bool :=
  match s with [] => false | _ :: _ => true end.

(** [str.isspace] of one character, which is also what [\s] matches in a
    [str] pattern: CPython's [_PyUnicode_IsWhitespace]. *)
Definition isspace (c : N) : bool :=
  ((9 <=? c) && (c <=? 13)) || ((28 <=? c) && (c <=? 32))
  || (c =? 133) || (c =? 160) || (c =? 5760)
  || ((8192 <=? c) && (c <=? 8202))
  || (c =? 8232) || (c =? 8233) || (c =? 8239) || (c =? 8287)
  || (c =? 12288).

(** [s.startswith(p)]. *)
Fixpoint starts_with (p s : pystr) : bool :=
  match p, s with
  | [], _ => true
  | _ :: _, [] => false
  | a :: p', b :: s' => (a =? b) && starts_with p' s'
  end.

(** [s.find(p)]: the index of the first occurrence of [p] in [s]. *)
Fixpoint find (p s : pystr) : option nat :=
  if starts_with p s then Some 0%nat
  else match s with
       | [] => None
       | _ :: s' => option_map S (find p s')
       end.

(** [p in s]. *)
Definition contains (p s : pystr) : bool :=
  match find p s with Some _ => true | None => false end.

(** [s.lstrip()], [s.rstrip()] and [s.strip()] without arguments. *)
Fixpoint lstrip (s : pystr) : pystr :=
  match s with
  | c :: s' => if isspace c then lstrip s' else s
  | [] => []
  end.

Definition rstrip (s : pystr) : pystr := rev (lstrip (rev s)).

Definition strip (s : pystr) : pystr := rstrip (lstrip s).

(** [sep.join(parts)]. *)
Fixpoint join (sep : pystr) (parts : list pystr) : pystr :=
  match parts with
  | [] => []
  | [p] => p
  | p :: rest => p ++ sep ++ join sep rest
  end.

(** The characters one pattern letter matches under [re.IGNORECASE] in a
    [str] pattern.  [p] is a character of a pattern of this repository: a
    lower-case ASCII letter, a colon or a space.  A cased letter matches
    every character whose simple lower-case form is [p] (the letter, its
    capital, and U+0130 for i, U+212A for k) or is in [p]'s equivalence
    class of [sre_compile] (U+0131 for i, U+017F for s); an uncased
    character matches itself only. *)
Definition is_ascii_lower (p : N) : bool := (97 <=? p) && (p <=? 122).

Definition ci_char (p c : N) : bool :=
  (c =? p)
  || (is_ascii_lower p && (c =? p - 32))
  || ((p =? 105) && ((c =? 304) || (c =? 305)))
  || ((p =? 115) && (c =? 383))
  || ((p =? 107) && (c =? 8490)).

(** A literal pattern matched case-insensitively at the head of [s]. *)
Fixpoint ci_starts_with (p s : pystr) : bool :=
  match p, s with
  | [], _ => true
  | _ :: _, [] => false
  | a :: p', b :: s' => ci_char a b && ci_starts_with p' s'
  end.

(** [re.sub(pattern, repl, s)] for a pattern that never matches the empty
    string.  The pattern is given by its matcher [m]: [m t] is the length
    of the match that starts at the head of [t], if there is one.  The
    scan goes left to right; a match is replaced by [repl] and the scan
    resumes behind it ([skip] counts the characters of the current match
    still to be dropped). *)
Fixpoint re_sub_from (m : pystr -> option nat) (repl : pystr)
    (skip : nat) (s : pystr) : pystr :=
  match s with
  | [] => []
  | c :: s' =>
      match skip with
      | S k => re_sub_from m repl k s'
      | O =>
          match m s with
          | Some (S n) => repl ++ re_sub_from m repl n s'
          | _ => c :: re_sub_from m repl 0 s'
          end
      end
  end.

Definition re_sub (m : pystr -> option nat) (repl s : pystr) : pystr :=
  re_sub_from m repl 0 s.

End PyStr.

Export PyStr.

(** The payloads this program emits are dicts with string keys.  A dict is
    kept as its items in insertion order, which is the order Python
    iterates it in. *)
Module PyVal.

#[warnings="-register-all"]
Inductive pyval :=
  | VStr (s : pystr)
  | VInt (z : Z)
  | VBool (b : bool)
  | VDict (d : list (pystr * pyval)).

Abbreviation pydict := (list (pystr * pyval)).

(** [d.get(k)]. *)
Fixpoint dict_get (k : pystr) (d : pydict) : option pyval :=
  match d with
  | [] => None
  | (k', v) :: d' => if str_eqb k k' then Some v else dict_get k d'
  end.

(** [d[k] = v]: an existing key keeps its place. *)
Fixpoint dict_set (k : pystr) (v : pyval) (d : pydict) : pydict :=
  match d with
  | [] => [(k, v)]
  | (k', v') :: d' =>
      if str_eqb k k' then (k, v) :: d' else (k', v') :: dict_set k v d'
  end.

Definition keys (d : pydict) : list pystr := d.*1.
Definition values (d : pydict) : list pyval := d.*2.

(** [v == s] for a string [s]. *)
Definition is_str (s : pystr) (v : option pyval) : bool :=
  match v with
  | Some (VStr s') => str_eqb s' s
  | _ => false
  end.

End PyVal.

Export PyVal.

(** ** utils/validation.py *)

Module Validation.

Definition fence : pystr := py "```".

(** The matcher of [r'```.*?```'] with [re.DOTALL]: an opening fence, the
    fewest characters of any kind, a closing fence. *)
Definition m_fence (s : pystr) : option nat :=
  if starts_with fence s then
    match find fence (drop 3 s) with
    | Some j => Some (3 + j + 3)%nat
    | None => None
    end
  else None.

(** The matcher of an alternation of literals with [re.IGNORECASE]: the
    first alternative that matches wins. *)
Fixpoint m_alt (alts : list pystr) (s : pystr) : option nat :=
  match alts with
  | [] => None
  | p :: rest => if ci_starts_with p s then Some (length p) else m_alt rest s
  end.

Definition role_prefixes : list pystr :=
  [py "system:"; py "user:"; py "assistant:"].

Definition ignore_phrase : pystr := py "ignore previous instructions".

(** The matcher of [r'\s+']: the longest run of white space. *)
Fixpoint ws_run (s : pystr) : nat :=
  match s with
  | c :: s' => if isspace c then S (ws_run s') else O
  | [] => O
  end.

Definition m_ws (s : pystr) : option nat :=
  match ws_run s with O => None | n => Some n end.

Definition sanitize_prompt_input (text : pystr) : pystr :=
  if negb (truthy text) then []
  else
    let text := re_sub m_fence [] text in
    let text := re_sub (m_alt role_prefixes) [] text in
    let text := re_sub (m_alt [ignore_phrase]) [] text in
    let text := strip (re_sub m_ws (py " ") text) in
    text.

(** The field validators: [(valid, message)]. *)
Definition validate_product_name (name : pystr) : bool * pystr :=
  if negb (truthy name) || negb (truthy (strip name)) then
    (false, py "Product name is required")
  else if (100 <? length name)%nat then
    (false, py "Product name must be under 100 characters")
  else (true, []).

Definition validate_product_details (details : pystr) : bool * pystr :=
  if (1000 <? length details)%nat then
    (false, py "Product details must be under 1000 characters")
  else (true, []).

Definition validate_keywords (keywords : pystr) : bool * pystr :=
  if (200 <? length keywords)%nat then
    (false, py "Keywords must be under 200 characters")
  else (true, []).

Definition validate_extra_instructions (instructions : pystr) : bool * pystr :=
  if (500 <? length instructions)%nat then
    (false, py "Extra instructions must be under 500 characters")
  else (true, []).

(** The optional fields and their validators, in the order of the loop. *)
Definition optional_validators : list (pystr * (pystr -> bool * pystr)) :=
  [(py "product_details", validate_product_details);
   (py "keywords", validate_keywords);
   (py "extra_instructions", validate_extra_instructions)].

(** One round of the loop over the optional fields: [errors[field] =
    message] adds an item, every field being visited once. *)
Definition check_optional (data : gmap pystr pystr)
    (errors : list (pystr * pystr))
    (fv : pystr * (pystr -> bool * pystr)) : list (pystr * pystr) :=
  match data !! fv.1 with
  | Some x =>
      if truthy x then
        let '(valid, message) := fv.2 (default [] (data !! fv.1)) in
        if negb valid then errors ++ [(fv.1, message)] else errors
      else errors
  | None => errors
  end.

(** [validate_form_data]: the text fields of the submitted form are
    strings; [errors] is the dict of messages by field, in insertion
    order. *)
Definition validate_form_data (data : gmap pystr pystr)
    : bool * list (pystr * pystr) :=
  let errors := [] in
  let '(valid, message) :=
    validate_product_name (default [] (data !! py "product_name")) in
  let errors :=
    if negb valid then errors ++ [(py "product_name", message)] else errors in
  let errors := fold_left (check_optional data) optional_validators errors in
  (bool_decide (length errors = 0%nat), errors).

End Validation.

(** ** utils/cache.py *)

Module Cache.

(** One cache entry, [{"value": ..., "expires_at": ...}].  The values this
    program stores are texts and URLs.  Clock readings ([time.time()]) are
    modelled as integers: the cache only adds a lifetime to a reading and
    compares readings. *)
Record entry := Entry { value : pystr; expires_at : Z }.

Record SimpleCache := MkCache {
  cache : gmap pystr entry;
  default_expiry : Z
}.

(** [SimpleCache()]: the cache starts empty; entries live for an hour. *)
Definition init (default_expiry : Z) : SimpleCache := MkCache ∅ default_expiry.
Definition init_default : SimpleCache := init 3600.

(** [get]: [now] is the reading of [time.time()] made by this call.  The
    result is the returned value ([None] for Python's [None]) and the
    cache as the call leaves it. *)
Definition get (now : Z) (key : pystr) (c : SimpleCache)
    : option pystr * SimpleCache :=
  match cache c !! key with
  | None => (None, c)
  | Some e =>
      if (expires_at e <? now)%Z
      then (None, MkCache (delete key (cache c)) (default_expiry c))
      else (Some (value e), c)
  end.

Definition set (now : Z) (key value : pystr) (expiry : option Z)
    (c : SimpleCache) : SimpleCache :=
  let expires_at :=
    (now + match expiry with Some x => x | None => default_expiry c end)%Z in
  MkCache (<[key := Entry value expires_at]> (cache c)) (default_expiry c).

Definition delete (key : pystr) (c : SimpleCache) : SimpleCache :=
  match cache c !! key with
  | Some _ => MkCache (base.delete key (cache c)) (default_expiry c)
  | None => c
  end.

Definition clear (c : SimpleCache) : SimpleCache :=
  MkCache ∅ (default_expiry c).

(** [clean_expired]: the keys are collected first and deleted one by one
    afterwards; the result is how many there were. *)
Definition clean_expired (now : Z) (c : SimpleCache) : nat * SimpleCache :=
  let expired_keys :=
    (filter (λ kv : pystr * entry, (expires_at (kv.2) < now)%Z)
            (map_to_list (cache c))).*1 in
  (length expired_keys,
   MkCache (foldr base.delete (cache c) expired_keys) (default_expiry c)).

(** The values [create_key] is called with in this repository: strings
    and one boolean ([viral_flag]). *)
Inductive scalar := SStr (s : pystr) | SBool (b : bool).

(** [str(v)], which is also how an f-string renders [v]. *)
Definition py_str (v : scalar) : pystr :=
  match v with
  | SStr s => s
  | SBool true => py "True"
  | SBool false => py "False"
  end.

(** The order [sorted] puts the items of [kwargs] in.  Python compares
    the (name, value) tuples; [kwargs] is a dict, its names are distinct,
    so two items are always told apart by their names, which compare as
    strings do: code point by code point, a proper prefix first. *)
Definition item_le (p q : pystr * scalar) : Prop := ¬ lexico (q.1) (p.1).

Global Instance item_le_dec : RelDecision item_le.
Proof. intros p q. unfold item_le. apply _. Defined.

Definition sorted_items (kwargs : list (pystr * scalar))
    : list (pystr * scalar) :=
  merge_sort item_le kwargs.

Definition render_item (kv : pystr * scalar) : pystr :=
  kv.1 ++ py "=" ++ py_str (kv.2).

(** [create_key]: [args] are the positional arguments, [kwargs] the
    keyword arguments in the order the caller wrote them. *)
Definition create_key (args : list scalar) (kwargs : list (pystr * scalar))
    : pystr :=
  let key_parts := py_str <$> args in
  let key_parts := key_parts ++ (render_item <$> sorted_items kwargs) in
  join (py ":") key_parts.

End Cache.

(** ** utils/error_handler.py *)

Module ErrorHandler.

(** What the handler reads of an exception [e]: [type(e).__name__] and
    [str(e)]. *)
Record exn := Exn { type_name : pystr; message : pystr }.

Section Lower.

(** [str.lower] maps every character by the Unicode case tables of the
    Python runtime.  For ASCII it is written out; the table for the other
    characters is not part of the repository and is a parameter.  (The one
    context rule of [str.lower], the final sigma, chooses between two
    characters outside ASCII.) *)
Variable unicode_lower : N -> pystr.

Definition lower_char (c : N) : pystr :=
  if (65 <=? c) && (c <=? 90) then [c + 32]
  else if c <? 128 then [c]
  else unicode_lower c.

Definition lower (s : pystr) : pystr := flat_map lower_char s.

(** The rules of [handle_openai_error] in the order of its [if]/[elif]
    chain: the message for the user and the kind tag. *)
Definition classify (error_type error_str : pystr) : pystr * pystr :=
  if contains (py "apiconnectionerror") error_type then
    (py "Could not connect to the OpenAI API. Please check your internet connection.",
     py "connection_error")
  else if contains (py "apiconnectionerror") error_type
          || contains (py "connection") error_str then
    (py "Could not connect to the OpenAI API. Please check your internet connection.",
     py "connection_error")
  else if contains (py "ratecreaterequesterror") error_type
          || contains (py "rate_limit") error_str
          || contains (py "rate limit") error_str
          || contains (py "too many requests") error_str then
    (py "API rate limit exceeded. Please try again in a few minutes.",
     py "rate_limit")
  else if contains (py "authenticationerror") error_type
          || contains (py "authentication") error_str
          || contains (py "auth") error_str
          || contains (py "unauthorized") error_str
          || contains (py "invalid api key") error_str then
    (py "Authentication error. Please check your OpenAI API key.",
     py "authentication")
  else if contains (py "insufficientquota") error_type
          || contains (py "quota") error_str
          || contains (py "billing") error_str then
    (py "Your OpenAI API quota has been exceeded. Please check your billing details.",
     py "quota_exceeded")
  else if contains (py "invalidrequesterror") error_type
          || contains (py "invalid_request") error_str
          || contains (py "bad request") error_str
          || contains (py "validation") error_str then
    (py "Invalid request. Please check your inputs and try again.",
     py "invalid_request")
  else if contains (py "apierror") error_type
          && (contains (py "model") error_str
              || contains (py "not found") error_str
              || contains (py "unavailable") error_str) then
    (py "The requested AI model is currently unavailable.",
     py "model_error")
  else if contains (py "contentfilterror") error_type
          || contains (py "content_filter") error_str
          || contains (py "content filter") error_str
          || contains (py "policy") error_str
          || contains (py "safety") error_str then
    (py "Your request was flagged by content filters. Please modify your content and try again.",
     py "content_filter")
  else if contains (py "timeout") error_str
          || contains (py "timed out") error_str then
    (py "The request timed out. Please try again with simpler inputs.",
     py "timeout")
  else
    (py "An error occurred with the AI service. Please try again later.",
     py "unknown").

(** [handle_openai_error(e)]: the message and the [error_details] dict
    (the logging calls leave no trace in the results). *)
Definition handle_openai_error (e : exn) : pystr * pydict :=
  let error_str := lower (message e) in
  let error_type := type_name e in
  let error_details :=
    [(py "original_error", VStr (message e));
     (py "error_type_name", VStr error_type)] in
  let '(message, kind) := classify error_type error_str in
  (message, dict_set (py "error_type") (VStr kind) error_details).

End Lower.

(** The messages of two other kinds, for comparison. *)
Definition authentication_message : pystr :=
  py "Authentication error. Please check your OpenAI API key.".
Definition timeout_message : pystr :=
  py "The request timed out. Please try again with simpler inputs.".

End ErrorHandler.

(** ** utils/ai_service.py *)

Module AiService.

Import Validation Cache ErrorHandler.

(** [usage_stats]. *)
Record usage := Usage {
  total_requests : Z;
  total_tokens : Z;
  total_images : Z;
  last_reset : Z
}.

(** The provider is reached through [create_chat_completion] and
    [create_image] of [utils/openai_compatibility.py], which pass their
    arguments on to the OpenAI client.  The calls made are recorded. *)
Record chat_call := ChatCall {
  chat_model : pystr;
  chat_messages : list (pystr * pystr);
  chat_max_tokens : Z;
  chat_temperature : Q;
  chat_stream : bool
}.

Record image_call := ImageCall {
  image_prompt : pystr;
  image_n : Z;
  image_size : pystr;
  image_model : pystr;
  image_quality : pystr
}.

(** What the provider answers to a chat call: the chunks of the stream,
    each given by what [extract_stream_content] reads from it (the empty
    string for a chunk without content), until the stream ends or the
    call or the iteration raises. *)
Inductive stream :=
  | StreamEnd
  | StreamChunk (delta : pystr) (rest : stream)
  | StreamRaise (e : exn).

(** What the provider answers to an image call: [get_image_url] of the
    response, or an exception. *)
Inductive image_result :=
  | ImageUrl (url : pystr)
  | ImageRaise (e : exn).

(** The process-wide state: the global [cache], the global
    [usage_stats], and the provider calls made so far. *)
Record world := World {
  the_cache : SimpleCache;
  stats : usage;
  chat_calls : list chat_call;
  image_calls : list image_call
}.

Definition reset_usage_stats (now : Z) (w : world) : world :=
  World (the_cache w) (Usage 0 0 0 now) (chat_calls w) (image_calls w).

Definition get_usage_stats (w : world) : usage := stats w.

(** [min(100, int((total_tokens / 300) * 100))] in the binary64
    arithmetic Python computes it in. *)
Definition float_of_Z (n : Z) : float := PrimFloat.of_uint63 (Uint63.of_Z n).

Definition int_of_float (x : float) : Z :=
  match Prim2SF x with
  | S754_finite s m e =>
      let mag := if (0 <=? e)%Z then Z.shiftl (Z.pos m) e
                 else Z.shiftr (Z.pos m) (- e) in
      if s then (- mag)%Z else mag
  | _ => 0%Z
  end.

Definition percent_of (total_tokens : Z) : Z :=
  Z.min 100
    (int_of_float
       (PrimFloat.mul
          (PrimFloat.div (float_of_Z total_tokens) (float_of_Z 300))
          (float_of_Z 100))).

Definition nl : pystr := [10].

Definition system_message : pystr :=
  py "You are an advanced marketing copywriter assistant specializing in compelling product descriptions. "
  ++ py "Follow the user instructions precisely and format your response into labeled sections. "
  ++ py "Ensure the Body section always has at least one substantial paragraph with engaging content. "
  ++ py "Use persuasive language and focus on benefits rather than just features.".

Definition base_instructions : pystr :=
  py "Write a compelling product description with these labeled sections:" ++ nl
  ++ py "Hook: (A short, attention-grabbing opening line)" ++ nl
  ++ py "Body: (At least one full paragraph describing benefits and features)" ++ nl
  ++ py "CTA: (A clear call-to-action)" ++ nl ++ nl
  ++ py "Then provide a line labeled 'Suggested Hashtags and Keywords:' at the end. "
  ++ py "Make sure each section is clearly marked.".

(** [if value: prompt_lines.append(label + value)]. *)
Definition line_if (label value : pystr) : list pystr :=
  if truthy value then [label ++ value] else [].

(** The sanitized fields of one request, in the order the function reads
    them. *)
Record fields := Fields {
  product_name : pystr;
  product_details : pystr;
  language : pystr;
  tone : pystr;
  keywords : pystr;
  audience : pystr;
  platform : pystr;
  usps : pystr;
  cta_style : pystr;
  viral_flag : bool;
  extra_instructions : pystr
}.

Definition read_field (product_info : gmap pystr pystr) (name dflt : pystr)
    : pystr :=
  sanitize_prompt_input (default dflt (product_info !! name)).

Definition read_fields (product_info : gmap pystr pystr) : fields :=
  Fields
    (read_field product_info (py "product_name") [])
    (read_field product_info (py "product_details") [])
    (read_field product_info (py "language") (py "English"))
    (read_field product_info (py "tone") (py "Professional"))
    (read_field product_info (py "keywords") [])
    (read_field product_info (py "audience") [])
    (read_field product_info (py "platform") [])
    (read_field product_info (py "usps") [])
    (read_field product_info (py "cta_style") [])
    (bool_decide (product_info !! py "viral" = Some (py "Yes")))
    (read_field product_info (py "extra_instructions") []).

Definition description_key (f : fields) (model : pystr) : pystr :=
  create_key [SStr (py "product_description")]
    [(py "product_name", SStr (product_name f));
     (py "product_details", SStr (product_details f));
     (py "language", SStr (language f));
     (py "tone", SStr (tone f));
     (py "keywords", SStr (keywords f));
     (py "audience", SStr (audience f));
     (py "platform", SStr (platform f));
     (py "usps", SStr (usps f));
     (py "cta_style", SStr (cta_style f));
     (py "viral_flag", SBool (viral_flag f));
     (py "extra_instructions", SStr (extra_instructions f));
     (py "model", SStr model)].

Definition final_prompt (f : fields) : pystr :=
  let prompt_lines :=
    [py "Product Name: " ++ product_name f]
    ++ line_if (py "Product Details: ") (product_details f)
    ++ line_if (py "Language: ") (language f)
    ++ line_if (py "Tone: ") (tone f)
    ++ line_if (py "SEO Keywords: ") (keywords f)
    ++ line_if (py "Target Audience: ") (audience f)
    ++ line_if (py "Platform: ") (platform f)
    ++ line_if (py "Unique Selling Points: ") (usps f)
    ++ line_if (py "CTA Style: ") (cta_style f)
    ++ [if viral_flag f
        then py "Include emotional triggers, social proof, and FOMO for a viral effect."
        else py "Avoid explicit FOMO or hype; keep it persuasive yet balanced."] in
  let instructions :=
    if truthy (strip (extra_instructions f))
    then base_instructions ++ nl ++ py "Additional instructions:" ++ nl
         ++ strip (extra_instructions f)
    else base_instructions in
  let prompt_context := join nl prompt_lines in
  prompt_context ++ nl ++ nl ++ instructions.

(** The two events of the cache-hit path. *)
Definition cached_events (cached_result : pystr) : list pydict :=
  [ [(py "data", VStr (py "Using cached result..."));
     (py "partial", VStr []);
     (py "percent", VInt 50)];
    [(py "data", VStr (py "Text generation complete."));
     (py "partial", VStr cached_result);
     (py "percent", VInt 100)] ].

(** The [for chunk in response] loop: the events it yields, and the text,
    the token count and the exception (if any) it ends with. *)
Fixpoint stream_loop (response : stream) (output_text : pystr)
    (total_tokens : Z) : list pydict * (pystr * Z * option exn) :=
  match response with
  | StreamEnd => ([], (output_text, total_tokens, None))
  | StreamRaise e => ([], (output_text, total_tokens, Some e))
  | StreamChunk delta rest =>
      if truthy delta then
        let output_text := output_text ++ delta in
        let total_tokens := (total_tokens + 1)%Z in
        let percent := percent_of total_tokens in
        let '(events, r) := stream_loop rest output_text total_tokens in
        ([(py "data", VStr (py "Generating description..."));
          (py "partial", VStr output_text);
          (py "percent", VInt percent)] :: events, r)
      else stream_loop rest output_text total_tokens
  end.

Section Service.

Variable unicode_lower : N -> pystr.

(** [generate_product_description].  The generator is given by the list
    of the events it yields when it is run to its end, and the state it
    leaves.  [t_get] and [t_set] are the clock readings of its
    [cache.get] and [cache.set]; [response] is what the provider answers
    if it is called.  [stream_callback] is left at its default [None], as
    every caller in the repository does. *)
Definition generate_product_description
    (product_info : gmap pystr pystr) (model : pystr) (max_tokens : Z)
    (temperature : Q) (use_cache : bool)
    (t_get t_set : Z) (response : stream) (w : world)
    : list pydict * world :=
  let f := read_fields product_info in
  let cache_key := description_key f model in
  let '(cached_result, c1) :=
    if use_cache then get t_get cache_key (the_cache w)
    else (None, the_cache w) in
  if use_cache && match cached_result with
                  | Some v => truthy v
                  | None => false
                  end
  then
    (cached_events (default [] cached_result),
     World c1 (stats w) (chat_calls w) (image_calls w))
  else
    let stats1 :=
      Usage (total_requests (stats w) + 1) (total_tokens (stats w))
            (total_images (stats w)) (last_reset (stats w)) in
    let first :=
      [(py "data", VStr (py "Generating product description..."));
       (py "partial", VStr [])] in
    let messages :=
      [(py "system", system_message); (py "user", final_prompt f)] in
    let calls :=
      chat_calls w ++ [ChatCall model messages max_tokens temperature true] in
    let '(events, (output_text, total_tokens, failure)) :=
      stream_loop response [] 0 in
    match failure with
    | None =>
        let stats2 :=
          Usage (AiService.total_requests stats1)
                (AiService.total_tokens stats1 + total_tokens)
                (total_images stats1) (last_reset stats1) in
        let c2 :=
          if use_cache then set t_set cache_key output_text None c1
          else c1 in
        (first :: events ++
           [[(py "data", VStr (py "Text generation complete."));
             (py "partial", VStr output_text);
             (py "percent", VInt 100)]],
         World c2 stats2 calls (image_calls w))
    | Some e =>
        let '(error_msg, error_details) :=
          handle_openai_error unicode_lower e in
        (first :: events ++
           [[(py "data", VStr (py "Error: " ++ error_msg));
             (py "partial", VStr (if truthy output_text then output_text else []));
             (py "percent", VInt 0);
             (py "error", VBool true);
             (py "error_details", VDict error_details)]],
         World c1 stats1 calls (image_calls w))
    end.

Definition image_key (sanitized_product_name model size quality : pystr)
    : pystr :=
  create_key [SStr (py "product_image")]
    [(py "product_name", SStr sanitized_product_name);
     (py "model", SStr model);
     (py "size", SStr size);
     (py "quality", SStr quality)].

(** [_generate_image], the body of the background thread that
    [generate_product_image_async] starts: the updates it hands to the
    callback, in order, and the state it leaves.  [result] is what the
    provider answers if it is called. *)
Definition _generate_image
    (product_name model size quality : pystr)
    (t_get t_set : Z) (result : image_result) (w : world)
    : list pydict * world :=
  let sanitized_product_name := sanitize_prompt_input product_name in
  let step1 :=
    [(py "status", VStr (py "Creating image prompt..."));
     (py "percent", VInt 10)] in
  let cache_key := image_key sanitized_product_name model size quality in
  let '(cached_result, c1) := get t_get cache_key (the_cache w) in
  if match cached_result with Some v => truthy v | None => false end
  then
    ([step1;
      [(py "status", VStr (py "Using cached image..."));
       (py "percent", VInt 50)];
      [(py "percent", VInt 100);
       (py "image_url", VStr (default [] cached_result))]],
     World c1 (stats w) (chat_calls w) (image_calls w))
  else
    let image_prompt :=
      py "Generate a realistic, high-quality image of the product: "
      ++ sanitized_product_name
      ++ py ". Do not include any text, logos, or branding." in
    let step2 :=
      [(py "status", VStr (py "Sending request to DALL-E 3..."));
       (py "percent", VInt 25)] in
    let step3 :=
      [(py "status",
        VStr (py "Your image is being generated, it can take up to 30 seconds..."));
       (py "percent", VInt 50)] in
    let stats1 :=
      Usage (total_requests (stats w) + 1) (total_tokens (stats w))
            (total_images (stats w) + 1) (last_reset (stats w)) in
    let calls :=
      image_calls w ++ [ImageCall image_prompt 1 size model quality] in
    match result with
    | ImageUrl image_url =>
        ([step1; step2; step3;
          [(py "percent", VInt 100); (py "image_url", VStr image_url)]],
         World (set t_set cache_key image_url None c1) stats1
               (chat_calls w) calls)
    | ImageRaise e =>
        let '(error_msg, error_details) :=
          handle_openai_error unicode_lower e in
        ([step1; step2; step3;
          [(py "status", VStr (py "Image generation failed: " ++ error_msg));
           (py "percent", VInt 100);
           (py "error", VBool true);
           (py "error_details", VDict error_details)]],
         World c1 stats1 (chat_calls w) calls)
    end.

End Service.

End AiService.

(** ** app.py (with the settings of config.py it reads) *)

Module App.

Import Validation Cache ErrorHandler AiService.

(** [AppConfig]: the two model names are constants of [config.py], the
    two feature flags are read from the environment. *)
Record config := Config {
  ENABLE_CACHING : bool;
  ENABLE_IMAGE_GENERATION : bool
}.

Definition DEFAULT_MODEL : pystr := py "gpt-4o".
Definition DEFAULT_IMAGE_MODEL : pystr := py "dall-e-3".

(** A submitted form (the [data] of [start_generation]): its text fields
    by name, and the [generate_image] flag. *)
Record job := Job {
  text_fields : gmap pystr pystr;
  generate_image : bool
}.

(** The clock readings of the cache operations of one job. *)
Record clock := Clock {
  text_get : Z;
  text_set : Z;
  image_get : Z;
  image_set : Z
}.

(** The image thread runs beside the text stream.  Two of its schedules
    are modelled: all its callbacks arrive before the first text event is
    forwarded, or after the last one. *)
Inductive schedule := ImageThreadFirst | ImageThreadLast.

(** [os.getenv("OPENAI_API_KEY")] is set and is not the placeholder. *)
Definition api_key_configured (key : option pystr) : bool :=
  match key with
  | Some k => truthy k && negb (str_eqb k (py "dummy_key_please_set_in_env"))
  | None => false
  end.

(** An emitted message: the event name and its payload. *)
Abbreviation emitted := (pystr * pydict)%type.

(** [any(k for k in progress_update if "image" in k)]. *)
Definition has_image_key (progress_update : pydict) : bool :=
  existsb truthy (filter (λ k, contains (py "image") k = true)
                         (keys progress_update)).

(** The body of the loop over the text events: the event is forwarded,
    and the completion event of a job with an image is followed by one
    more. *)
Definition forward (image_toggle : bool) (progress_update : pydict)
    : list emitted :=
  (py "progress", progress_update)
  :: (if is_str (py "Text generation complete.")
               (dict_get (py "data") progress_update)
         && image_toggle && negb (has_image_key progress_update)
      then
        [(py "progress",
          [(py "data",
            VStr (py "Text generation complete, image generation in progress."));
           (py "partial",
            default (VStr []) (dict_get (py "partial") progress_update));
           (py "percent", VInt 100)])]
      else []).

Section Gateway.

Variable unicode_lower : N -> pystr.

(** [handle_generation]: everything emitted to the session, in order, and
    the state the job leaves. *)
Definition handle_generation (cfg : config) (api_key : option pystr)
    (data : job) (sched : schedule) (t : clock)
    (response : stream) (image_answer : image_result) (w : world)
    : list emitted * world :=
  if negb (api_key_configured api_key) then
    ([(py "progress",
       [(py "data",
         VStr (py "Error: OpenAI API key is not configured. Please check server configuration."));
        (py "partial", VStr []);
        (py "percent", VInt 0);
        (py "error", VBool true)])],
     w)
  else
    let '(is_valid, errors) := validate_form_data (text_fields data) in
    if negb is_valid then
      ([(py "progress",
         [(py "data", VStr (py "Error: " ++ join (py "; ") (errors.*2)));
          (py "partial", VStr []);
          (py "percent", VInt 0);
          (py "errors", VDict (prod_map id VStr <$> errors))])],
       w)
    else
      let product_name :=
        strip (sanitize_prompt_input
                 (default [] (text_fields data !! py "product_name"))) in
      let image_toggle := generate_image data in
      let image_toggle :=
        if image_toggle && negb (ENABLE_IMAGE_GENERATION cfg) then false
        else image_toggle in
      let started : list emitted :=
        if image_toggle then
          [(py "progress",
            [(py "data", VStr (py "Starting image generation in parallel..."));
             (py "partial", VStr []);
             (py "percent", VInt 0);
             (py "image_generation_started", VBool true)])]
        else [] in
      let image_thread (w : world) : list emitted * world :=
        if image_toggle then
          let '(updates, w') :=
            _generate_image unicode_lower product_name DEFAULT_IMAGE_MODEL
              (py "1024x1024") (py "standard")
              (image_get t) (image_set t) image_answer w in
          (pair (py "image_progress") <$> updates, w')
        else ([], w) in
      let text (w : world) : list emitted * world :=
        let '(events, w') :=
          generate_product_description unicode_lower (text_fields data)
            DEFAULT_MODEL 600 (Qmake 7 10) (ENABLE_CACHING cfg)
            (text_get t) (text_set t) response w in
        (flat_map (forward image_toggle) events, w') in
      match sched with
      | ImageThreadFirst =>
          let '(images, w1) := image_thread w in
          let '(texts, w2) := text w1 in
          (started ++ images ++ texts, w2)
      | ImageThreadLast =>
          let '(texts, w1) := text w in
          let '(images, w2) := image_thread w1 in
          (started ++ texts ++ images, w2)
      end.

(** [handle_regenerate_image]: [data] holds the product name; the image
    thread it starts is run to its end.  Everything emitted to the
    session, in order, and the state that is left. *)
Definition handle_regenerate_image (api_key : option pystr)
    (data : gmap pystr pystr) (t_get t_set : Z)
    (image_answer : image_result) (w : world) : list emitted * world :=
  if negb (api_key_configured api_key) then
    ([(py "image_progress",
       [(py "status",
         VStr (py "Error: OpenAI API key is not configured. Please check server configuration."));
        (py "percent", VInt 0);
        (py "error", VBool true)])],
     w)
  else
    let product_name :=
      strip (sanitize_prompt_input (default [] (data !! py "product_name"))) in
    if negb (truthy product_name) then
      ([(py "image_progress",
         [(py "status", VStr (py "Error: Product name is required"));
          (py "percent", VInt 0);
          (py "error", VBool true)])],
       w)
    else
      let '(updates, w') :=
        _generate_image unicode_lower product_name DEFAULT_IMAGE_MODEL
          (py "1024x1024") (py "standard") t_get t_set image_answer w in
      (pair (py "image_progress") <$> updates, w').

End Gateway.

End App.

(** ** Auxiliary definitions of the statements below *)

Module Scenario.

Import Validation Cache ErrorHandler AiService App.

(** A case table to run examples with: every character outside ASCII is
    its own lower-case form. *)
Definition plain_table (c : N) : pystr := [c].

(** [get] called again and again, at the clock readings [nows]: what the
    calls return. *)
Fixpoint repeat_get (nows : list Z) (key : pystr) (c : SimpleCache)
    : list (option pystr) :=
  match nows with
  | [] => []
  | now :: rest => (get now key c).1 :: repeat_get rest key (get now key c).2
  end.

(** A fresh process: an empty cache, counters at zero, no call made. *)
Definition fresh_world : world :=
  World init_default (Usage 0 0 0 0) [] [].

(** The text a chat answer adds up to when it is read to its end. *)
Definition streamed_text (response : stream) : pystr :=
  (stream_loop response [] 0).2.1.1.

Definition stream_failure (response : stream) : option exn :=
  (stream_loop response [] 0).2.2.

(** The rules of the form, field by field: the product name is required
    (not blank) and at most 100 characters long; the details, the
    keywords and the extra instructions are at most 1000, 200 and 500
    characters long.  [violated_fields] lists, in the order of the form,
    the fields that break their rule. *)
Definition field_value (data : gmap pystr pystr) (field : pystr) : pystr :=
  default [] (data !! field).

Definition name_violated (data : gmap pystr pystr) : bool :=
  let name := field_value data (py "product_name") in
  negb (truthy (strip name)) || (100 <? length name)%nat.

Definition too_long (data : gmap pystr pystr) (field : pystr) (limit : nat)
    : bool :=
  (limit <? length (field_value data field))%nat.

Definition violated_fields (data : gmap pystr pystr) : list pystr :=
  (if name_violated data then [py "product_name"] else [])
  ++ (if too_long data (py "product_details") 1000
      then [py "product_details"] else [])
  ++ (if too_long data (py "keywords") 200 then [py "keywords"] else [])
  ++ (if too_long data (py "extra_instructions") 500
      then [py "extra_instructions"] else []).

(** The pattern with matcher [m] matches nowhere in [s]. *)
Fixpoint no_match (m : pystr -> option nat) (s : pystr) : bool :=
  match m s with
  | Some _ => false
  | None => match s with
            | [] => true
            | _ :: s' => no_match m s'
            end
  end.

(** None of the three patterns the sanitizer removes (a fenced block, a
    role prefix, the phrase) is left in [s]. *)
Definition pattern_free (s : pystr) : bool :=
  no_match m_fence s
  && no_match (m_alt role_prefixes) s
  && no_match (m_alt [ignore_phrase]) s.

(** White space as [re.sub(r'\s+', ' ', ...)] leaves it: single spaces,
    each followed by something that is not white space. *)
Definition head_solid (s : pystr) : bool :=
  match s with
  | [] => true
  | d :: _ => negb (isspace d)
  end.

Fixpoint collapsed (s : pystr) : bool :=
  match s with
  | [] => true
  | c :: s' =>
      if isspace c then (c =? 32)%N && head_solid s' && collapsed s'
      else collapsed s'
  end.

(** A string without the character [c]. *)
Definition free_of (c : N) (s : pystr) : Prop := c ∉ s.

(** A keyword argument that [create_key] renders without ambiguity: no
    colon and no equals sign in the name, no colon in the rendered
    value. *)
Definition plain_item (kv : pystr * scalar) : Prop :=
  free_of 58 (kv.1) /\ free_of 61 (kv.1) /\ free_of 58 (py_str (kv.2)).

(** An item as the key shows it: the name and the rendered value. *)
Definition rendered (kv : pystr * scalar) : pystr * pystr :=
  (kv.1, py_str (kv.2)).

(** The completion event of the text orchestrator, and the notice the
    gateway sends behind it. *)
Definition completion_event (text : pystr) : pydict :=
  [(py "data", VStr (py "Text generation complete."));
   (py "partial", VStr text);
   (py "percent", VInt 100)].

Definition completion_notice (text : pystr) : emitted :=
  (py "progress",
   [(py "data",
     VStr (py "Text generation complete, image generation in progress."));
    (py "partial", VStr text);
    (py "percent", VInt 100)]).

(** The tokens the loop counts while it reads a chat answer. *)
Definition streamed_tokens (response : stream) : Z :=
  (stream_loop response [] 0).2.1.2.

(** The event that precedes the provider call. *)
Definition generating_event : pydict :=
  [(py "data", VStr (py "Generating product description..."));
   (py "partial", VStr [])].

(** The deltas of a chat answer, up to its end or its failure. *)
Fixpoint deltas (response : stream) : list pystr :=
  match response with
  | StreamChunk delta rest => delta :: deltas rest
  | StreamEnd | StreamRaise _ => []
  end.

(** The nine pairs of a message for the user and a kind tag that
    [handle_openai_error] chooses from. *)
Definition known_errors : list (pystr * pystr) :=
  [(py "Could not connect to the OpenAI API. Please check your internet connection.",
    py "connection_error");
   (py "API rate limit exceeded. Please try again in a few minutes.",
    py "rate_limit");
   (py "Authentication error. Please check your OpenAI API key.",
    py "authentication");
   (py "Your OpenAI API quota has been exceeded. Please check your billing details.",
    py "quota_exceeded");
   (py "Invalid request. Please check your inputs and try again.",
    py "invalid_request");
   (py "The requested AI model is currently unavailable.",
    py "model_error");
   (py "Your request was flagged by content filters. Please modify your content and try again.",
    py "content_filter");
   (py "The request timed out. Please try again with simpler inputs.",
    py "timeout");
   (py "An error occurred with the AI service. Please try again later.",
    py "unknown")].

(** The test [_generate_image] branches on: [cache.get] returns a truthy
    value for the fingerprint of the image. *)
Definition takes_cached_image (product_name model size quality : pystr)
    (t_get : Z) (w : world) : bool :=
  match (get t_get
           (image_key (sanitize_prompt_input product_name) model size quality)
           (the_cache w)).1 with
  | Some v => truthy v
  | None => false
  end.

(** The four callbacks of an image generation that reaches the provider
    and gets [url] back. *)
Definition image_generated_updates (url : pystr) : list pydict :=
  [ [(py "status", VStr (py "Creating image prompt..."));
     (py "percent", VInt 10)];
    [(py "status", VStr (py "Sending request to DALL-E 3..."));
     (py "percent", VInt 25)];
    [(py "status",
      VStr (py "Your image is being generated, it can take up to 30 seconds..."));
     (py "percent", VInt 50)];
    [(py "percent", VInt 100); (py "image_url", VStr url)] ].

(** The three callbacks of an image served from the cache. *)
Definition image_cached_updates (url : pystr) : list pydict :=
  [ [(py "status", VStr (py "Creating image prompt..."));
     (py "percent", VInt 10)];
    [(py "status", VStr (py "Using cached image..."));
     (py "percent", VInt 50)];
    [(py "percent", VInt 100); (py "image_url", VStr url)] ].

(** The prompt sent to the image endpoint. *)
Definition image_prompt_for (sanitized_product_name : pystr) : pystr :=
  py "Generate a realistic, high-quality image of the product: "
  ++ sanitized_product_name
  ++ py ". Do not include any text, logos, or branding.".

(** The test [generate_product_description] branches on: caching is on
    and [cache.get] returns a truthy value. *)
Definition takes_cached_path (product_info : gmap pystr pystr)
    (model : pystr) (use_cache : bool) (t_get : Z) (w : world) : bool :=
  use_cache
  && match (get t_get (description_key (read_fields product_info) model)
                (the_cache w)).1 with
     | Some v => truthy v
     | None => false
     end.

End Scenario.

(** * Theorems *)

Import Validation Cache ErrorHandler AiService App Scenario.

Local Open Scope Z_scope.

Example create_key_demo :
  create_key [SStr (py "ns")] [(py "b", SStr (py "2")); (py "a", SBool true)]
  = py "ns:a=True:b=2".
Proof. vm_compute. reflexivity. Qed.

(** ** The response cache *)

Section CacheFacts.

Implicit Types (c : SimpleCache) (key : pystr) (e : entry) (now : Z).

Lemma get_unseen now key c :
  cache c !! key = None -> get now key c = (None, c).
Proof. intros H. unfold get. now rewrite H. Qed.

Lemma get_fresh now key c e :
  cache c !! key = Some e -> now <= expires_at e ->
  get now key c = (Some (value e), c).
Proof.
  intros H Hle. unfold get. rewrite H.
  destruct (Z.ltb_spec (expires_at e) now); [lia | reflexivity].
Qed.

Lemma get_expired now key c e :
  cache c !! key = Some e -> expires_at e < now ->
  get now key c = (None, MkCache (base.delete key (cache c)) (default_expiry c)).
Proof.
  intros H Hlt. unfold get. rewrite H.
  destruct (Z.ltb_spec (expires_at e) now); [reflexivity | lia].
Qed.

Lemma repeat_get_unseen nows key c :
  cache c !! key = None -> Forall (eq None) (repeat_get nows key c).
Proof.
  intros H. induction nows as [|now rest IH]; simpl.
  - constructor.
  - rewrite (get_unseen now key c H). simpl. constructor; auto.
Qed.

Lemma set_then_lookup now key v expiry c :
  cache (set now key v expiry c) !! key
  = Some (Entry v (now + match expiry with
                         | Some x => x
                         | None => default_expiry c
                         end)).
Proof. unfold set. simpl. apply lookup_insert_eq. Qed.

End CacheFacts.

(** C2, as stated, fails at the boundary: an entry whose [expires_at]
    equals the clock reading is still served, because [get] drops an
    entry only when [expires_at < now]. *)
Lemma get_at_expiry_still_served :
  let c := MkCache {[ py "k" := Entry (py "v") 100 ]} 3600 in
  cache c !! py "k" = Some (Entry (py "v") 100)
  /\ 100 >= expires_at (Entry (py "v") 100)
  /\ get 100 (py "k") c = (Some (py "v"), c).
Proof.
  simpl. split; [apply lookup_singleton_eq|]. split; [lia|].
  unfold get. simpl. rewrite lookup_singleton_eq. reflexivity.
Qed.

(** C2 (amended): for every cache entry, [get] returns absent whenever
    the clock reading is strictly greater than the stored [expires_at];
    the call removes the entry, and every later [get] of the key, at
    whatever clock readings, returns absent as well. *)
Theorem get_expired_absent (c : SimpleCache) (key : pystr) (e : entry)
    (now : Z) (nows : list Z) :
  cache c !! key = Some e ->
  expires_at e < now ->
  (get now key c).1 = None
  /\ cache (get now key c).2 = base.delete key (cache c)
  /\ cache (get now key c).2 !! key = None
  /\ Forall (eq None) (repeat_get nows key (get now key c).2).
Proof.
  intros H Hlt. rewrite (get_expired now key c e H Hlt). simpl.
  assert (base.delete key (cache c) !! key = None) as Hd
    by apply lookup_delete_eq.
  repeat split; auto.
  apply repeat_get_unseen. exact Hd.
Qed.

Lemma get_expired_absent_witness :
  let c := MkCache {[ py "k" := Entry (py "v") 100 ]} 3600 in
  (get 101 (py "k") c).1 = None
  /\ cache (get 101 (py "k") c).2 = base.delete (py "k") (cache c)
  /\ cache (get 101 (py "k") c).2 !! py "k" = None
  /\ Forall (eq None) (repeat_get [50; 101; 7000] (py "k") (get 101 (py "k") c).2).
Proof.
  apply (get_expired_absent _ _ (Entry (py "v") 100)).
  - apply lookup_singleton_eq.
  - simpl. lia.
Defined.

(** ** The text orchestrator *)

Section TextFacts.

Variable unicode_lower : N -> pystr.

Implicit Types (w : world) (product_info : gmap pystr pystr).

Lemma world_eta w :
  World (the_cache w) (stats w) (chat_calls w) (image_calls w) = w.
Proof. now destruct w. Qed.

Lemma truthy_nonempty (s : pystr) : s <> [] -> truthy s = true.
Proof. now destruct s. Qed.

(** What the cache-hit path of [generate_product_description] does. *)
Lemma description_from_cache product_info model max_tokens temperature
    t_get t_set response w e :
  cache (the_cache w) !! description_key (read_fields product_info) model
    = Some e ->
  t_get <= expires_at e ->
  value e <> [] ->
  generate_product_description unicode_lower product_info model max_tokens
    temperature true t_get t_set response w
  = (cached_events (value e), w).
Proof.
  intros Hkey Hle Hval. unfold generate_product_description.
  rewrite (get_fresh _ _ _ _ Hkey Hle). simpl.
  rewrite (truthy_nonempty _ Hval). simpl.
  now rewrite world_eta.
Qed.

(** What a first, successful run leaves in the cache. *)
Lemma description_cached_after_success product_info model max_tokens
    temperature t_get t_set response w :
  (forall e,
     cache (the_cache w) !! description_key (read_fields product_info) model
       = Some e -> value e = []) ->
  stream_failure response = None ->
  cache (the_cache
           (generate_product_description unicode_lower product_info model
              max_tokens temperature true t_get t_set response w).2)
    !! description_key (read_fields product_info) model
  = Some (Entry (streamed_text response)
                (t_set + default_expiry (the_cache w))).
Proof.
  intros Hmiss Hok. unfold generate_product_description.
  unfold stream_failure, streamed_text in *.
  set (key := description_key (read_fields product_info) model) in *.
  assert ((get t_get key (the_cache w)).1 = None
          \/ (get t_get key (the_cache w)).1 = Some []) as Hget.
  { unfold get. destruct (cache (the_cache w) !! key) as [e|] eqn:E; auto.
    destruct (expires_at e <? t_get); simpl; auto.
    right. f_equal. now apply Hmiss. }
  assert (default_expiry (get t_get key (the_cache w)).2
          = default_expiry (the_cache w)) as Hexp.
  { unfold get. destruct (cache (the_cache w) !! key) as [e|]; auto.
    now destruct (expires_at e <? t_get). }
  destruct (get t_get key (the_cache w)) as [cached c1]. simpl in *.
  destruct (stream_loop response [] 0) as [events [[text n] failure]].
  simpl in *. subst failure.
  destruct Hget; subst cached; simpl;
    rewrite lookup_insert_eq; now rewrite Hexp.
Qed.

End TextFacts.

(** C1, as stated, fails when the cached value is the empty text: the
    first request below streams nothing, so the empty string is cached
    under its fingerprint; the second, identical request finds it, takes
    it for a miss ([if cached_result:]), calls the provider again and
    yields three events. *)
Lemma empty_cached_text_generates_again :
  let info : gmap pystr pystr := {[ py "product_name" := py "Lamp" ]} in
  let run := generate_product_description plain_table info DEFAULT_MODEL
               600 (Qmake 7 10) true in
  let w1 := (run 0 1 StreamEnd fresh_world).2 in
  let second := run 2 3 (StreamChunk (py "Hi") StreamEnd) w1 in
  cache (the_cache w1) !! description_key (read_fields info) DEFAULT_MODEL
    = Some (Entry [] 3601)
  /\ length second.1 = 3%nat
  /\ length (chat_calls w1) = 1%nat
  /\ length (chat_calls second.2) = 2%nat.
Proof. vm_compute. repeat split; reflexivity. Qed.

(** C1 (amended): for every text-generation request whose fingerprint has
    an unexpired, non-empty cached value, with caching enabled, the
    request yields exactly two progress events, "Using cached result..."
    at percent 50 and then "Text generation complete." at percent 100
    carrying the cached text, and makes no provider call (the state is
    left as it was). *)
Theorem cached_request_two_events (unicode_lower : N -> pystr)
    (product_info : gmap pystr pystr) (model : pystr) (max_tokens : Z)
    (temperature : Q) (t_get t_set : Z) (response : stream) (w : world)
    (e : entry) :
  cache (the_cache w) !! description_key (read_fields product_info) model
    = Some e ->
  t_get <= expires_at e ->
  value e <> [] ->
  let r := generate_product_description unicode_lower product_info model
             max_tokens temperature true t_get t_set response w in
  r.1 = [ [(py "data", VStr (py "Using cached result..."));
           (py "partial", VStr []);
           (py "percent", VInt 50)];
          [(py "data", VStr (py "Text generation complete."));
           (py "partial", VStr (value e));
           (py "percent", VInt 100)] ]
  /\ chat_calls r.2 = chat_calls w
  /\ image_calls r.2 = image_calls w
  /\ r.2 = w.
Proof.
  intros Hkey Hle Hval r. subst r.
  rewrite (description_from_cache _ _ _ _ _ _ _ _ _ _ Hkey Hle Hval).
  simpl. auto.
Qed.

(** Two consecutive identical requests: when the first one streams a
    non-empty text to its end and the second one comes before the entry
    expires, the second one is served from the cache with the text of the
    first, and the provider has been called once in all. *)
Theorem second_request_served_from_cache (unicode_lower : N -> pystr)
    (product_info : gmap pystr pystr) (model : pystr) (max_tokens : Z)
    (temperature : Q) (t_get1 t_set1 t_get2 t_set2 : Z)
    (response1 response2 : stream) (w : world) :
  cache (the_cache w) !! description_key (read_fields product_info) model
    = None ->
  stream_failure response1 = None ->
  streamed_text response1 <> [] ->
  t_get2 <= t_set1 + default_expiry (the_cache w) ->
  let run := generate_product_description unicode_lower product_info model
               max_tokens temperature true in
  let first := run t_get1 t_set1 response1 w in
  let second := run t_get2 t_set2 response2 first.2 in
  second.1 = cached_events (streamed_text response1)
  /\ second.2 = first.2
  /\ length (chat_calls second.2) = S (length (chat_calls w)).
Proof.
  intros Hmiss Hok Htext Hle run first second. subst run first second.
  pose proof (description_cached_after_success unicode_lower product_info
                model max_tokens temperature t_get1 t_set1 response1 w) as Hc.
  rewrite Hmiss in Hc. specialize (Hc ltac:(discriminate) Hok).
  rewrite (description_from_cache unicode_lower _ _ _ _ _ _ _ _ _ Hc);
    simpl; auto.
  repeat split.
  unfold generate_product_description. rewrite (get_unseen _ _ _ Hmiss).
  unfold stream_failure in Hok. simpl.
  destruct (stream_loop response1 [] 0) as [events [[text n] failure]].
  simpl in Hok. subst failure. simpl. rewrite length_app. simpl. lia.
Qed.

Lemma cached_request_two_events_witness :
  let info : gmap pystr pystr := {[ py "product_name" := py "Lamp" ]} in
  let e := Entry (py "A fine lamp.") 100 in
  let w := World (MkCache {[ description_key (read_fields info) DEFAULT_MODEL
                             := e ]} 3600)
                 (Usage 1 12 0 0) [] [] in
  let r := generate_product_description plain_table info DEFAULT_MODEL 600
             (Qmake 7 10) true 50 51 StreamEnd w in
  r.1 = [ [(py "data", VStr (py "Using cached result..."));
           (py "partial", VStr []);
           (py "percent", VInt 50)];
          [(py "data", VStr (py "Text generation complete."));
           (py "partial", VStr (value e));
           (py "percent", VInt 100)] ]
  /\ chat_calls r.2 = chat_calls w
  /\ image_calls r.2 = image_calls w
  /\ r.2 = w.
Proof.
  intros info e w.
  apply (cached_request_two_events plain_table info DEFAULT_MODEL 600
           (Qmake 7 10) 50 51 StreamEnd w e).
  - apply lookup_singleton_eq.
  - simpl. lia.
  - discriminate.
Defined.

(** C10: for every text-generation invocation that takes the cache-hit
    path, the usage counters (and [last_reset]) are left as they were. *)
Theorem cached_path_keeps_usage (unicode_lower : N -> pystr)
    (product_info : gmap pystr pystr) (model : pystr) (max_tokens : Z)
    (temperature : Q) (use_cache : bool) (t_get t_set : Z)
    (response : stream) (w : world) :
  takes_cached_path product_info model use_cache t_get w = true ->
  stats (generate_product_description unicode_lower product_info model
           max_tokens temperature use_cache t_get t_set response w).2
  = stats w.
Proof.
  unfold takes_cached_path, generate_product_description.
  destruct use_cache; simpl; [|discriminate].
  destruct (get t_get _ (the_cache w)) as [[v|] c1]; simpl;
    [|discriminate].
  intros ->. reflexivity.
Qed.

Lemma cached_path_keeps_usage_witness :
  let info : gmap pystr pystr := {[ py "product_name" := py "Lamp" ]} in
  let w := World (MkCache {[ description_key (read_fields info) DEFAULT_MODEL
                             := Entry (py "A fine lamp.") 100 ]} 3600)
                 (Usage 1 12 0 0) [] [] in
  stats (generate_product_description plain_table info DEFAULT_MODEL 600
           (Qmake 7 10) true 50 51 StreamEnd w).2
  = stats w.
Proof.
  intros info w.
  apply (cached_path_keeps_usage plain_table info DEFAULT_MODEL 600
           (Qmake 7 10) true 50 51 StreamEnd w).
  vm_compute. reflexivity.
Defined.

(** The other path: a request that does not take the cache-hit path
    counts as one more request. *)
Lemma generating_path_counts_request (unicode_lower : N -> pystr)
    (product_info : gmap pystr pystr) (model : pystr) (max_tokens : Z)
    (temperature : Q) (use_cache : bool) (t_get t_set : Z)
    (response : stream) (w : world) :
  takes_cached_path product_info model use_cache t_get w = false ->
  total_requests
    (stats (generate_product_description unicode_lower product_info model
              max_tokens temperature use_cache t_get t_set response w).2)
  = total_requests (stats w) + 1.
Proof.
  unfold takes_cached_path, generate_product_description.
  intros H.
  destruct (if use_cache then get t_get _ (the_cache w) else _)
    as [cached c1] eqn:E.
  assert ((use_cache && match cached with
                        | Some v => truthy v
                        | None => false
                        end) = false) as ->.
  { destruct use_cache; [|reflexivity]. simpl in *. now rewrite E in H. }
  destruct (stream_loop response [] 0) as [events [[text n] [x|]]];
    [destruct (handle_openai_error unicode_lower x)|]; reflexivity.
Qed.

(** ** The image orchestrator *)

(** C6, as stated, fails in its last part: the "Creating image prompt..."
    callback at percent 10 is made before the cache is looked at, so a
    cache hit makes three callbacks, the first of them at percent 10. *)
Lemma cached_image_starts_at_ten_percent :
  let key := image_key (py "Lamp") DEFAULT_IMAGE_MODEL (py "1024x1024")
               (py "standard") in
  let w := World (MkCache {[ key := Entry (py "https://img/1") 100 ]} 3600)
                 (Usage 0 0 0 0) [] [] in
  (_generate_image plain_table (py "Lamp") DEFAULT_IMAGE_MODEL
     (py "1024x1024") (py "standard") 50 51 (ImageUrl (py "https://img/2")) w).1
  = [ [(py "status", VStr (py "Creating image prompt..."));
       (py "percent", VInt 10)];
      [(py "status", VStr (py "Using cached image..."));
       (py "percent", VInt 50)];
      [(py "percent", VInt 100);
       (py "image_url", VStr (py "https://img/1"))] ].
Proof. vm_compute. reflexivity. Qed.

(** C6 (amended): for every image-generation invocation whose fingerprint
    (product_name, model, size, quality under the image namespace) has an
    unexpired, non-empty cached URL, the callback is invoked with
    "Creating image prompt..." at percent 10, then with "Using cached
    image..." at percent 50, then with percent 100 and the cached
    [image_url], after which the task stops with no provider call (the
    state is left as it was); the callback at percent 10 is made on both
    paths. *)
Theorem cached_image_three_callbacks (unicode_lower : N -> pystr)
    (product_name model size quality : pystr) (t_get t_set : Z)
    (result : image_result) (w : world) (e : entry) :
  cache (the_cache w)
    !! image_key (sanitize_prompt_input product_name) model size quality
    = Some e ->
  t_get <= expires_at e ->
  value e <> [] ->
  let r := _generate_image unicode_lower product_name model size quality
             t_get t_set result w in
  r.1 = [ [(py "status", VStr (py "Creating image prompt..."));
           (py "percent", VInt 10)];
          [(py "status", VStr (py "Using cached image..."));
           (py "percent", VInt 50)];
          [(py "percent", VInt 100);
           (py "image_url", VStr (value e))] ]
  /\ image_calls r.2 = image_calls w
  /\ chat_calls r.2 = chat_calls w
  /\ r.2 = w.
Proof.
  intros Hkey Hle Hval r. subst r. unfold _generate_image.
  rewrite (get_fresh _ _ _ _ Hkey Hle). simpl.
  rewrite (truthy_nonempty _ Hval). simpl.
  rewrite world_eta. auto.
Qed.

Lemma cached_image_three_callbacks_witness :
  let e := Entry (py "https://img/1") 100 in
  let w := World (MkCache {[ image_key (sanitize_prompt_input (py "Lamp"))
                               DEFAULT_IMAGE_MODEL (py "1024x1024")
                               (py "standard") := e ]} 3600)
                 (Usage 0 0 0 0) [] [] in
  let r := _generate_image plain_table (py "Lamp") DEFAULT_IMAGE_MODEL
             (py "1024x1024") (py "standard") 50 51
             (ImageUrl (py "https://img/2")) w in
  r.1 = [ [(py "status", VStr (py "Creating image prompt..."));
           (py "percent", VInt 10)];
          [(py "status", VStr (py "Using cached image..."));
           (py "percent", VInt 50)];
          [(py "percent", VInt 100);
           (py "image_url", VStr (value e))] ]
  /\ image_calls r.2 = image_calls w
  /\ chat_calls r.2 = chat_calls w
  /\ r.2 = w.
Proof.
  intros e w.
  apply (cached_image_three_callbacks plain_table (py "Lamp")
           DEFAULT_IMAGE_MODEL (py "1024x1024") (py "standard") 50 51
           (ImageUrl (py "https://img/2")) w e).
  - apply lookup_singleton_eq.
  - simpl. lia.
  - discriminate.
Defined.

(** On a miss the callback at percent 10 is the first one as well. *)
Lemma image_miss_starts_at_ten_percent (unicode_lower : N -> pystr)
    (product_name model size quality : pystr) (t_get t_set : Z)
    (result : image_result) (w : world) :
  head (_generate_image unicode_lower product_name model size quality
          t_get t_set result w).1
  = Some [(py "status", VStr (py "Creating image prompt..."));
          (py "percent", VInt 10)].
Proof.
  unfold _generate_image.
  destruct (get t_get _ (the_cache w)) as [cached c1].
  destruct (match cached with Some v => truthy v | None => false end);
    [reflexivity|].
  destruct result as [url|x];
    [|destruct (handle_openai_error unicode_lower x)]; reflexivity.
Qed.

(** ** The error table *)

Section StringFacts.

Implicit Types (p s a b r : pystr).

Lemma starts_with_app p r : starts_with p (p ++ r) = true.
Proof.
  induction p as [|c p IH]; simpl; [reflexivity|].
  now rewrite N.eqb_refl.
Qed.

Lemma starts_with_inv p s :
  starts_with p s = true -> exists r, s = p ++ r.
Proof.
  revert s. induction p as [|c p IH]; intros s H; simpl in *.
  - now exists s.
  - destruct s as [|d s]; [discriminate|].
    apply andb_prop in H as [Hc Hp]. apply N.eqb_eq in Hc as ->.
    destruct (IH s Hp) as [r ->]. now exists r.
Qed.

Lemma find_head p s : starts_with p s = true -> find p s = Some 0%nat.
Proof. intros H. destruct s; simpl; now rewrite H. Qed.

Lemma find_app a p b : is_Some (find p (a ++ p ++ b)).
Proof.
  induction a as [|c a IH]; simpl.
  - rewrite find_head; [eauto | apply starts_with_app].
  - destruct IH as [i Hi].
    destruct (starts_with p (c :: a ++ p ++ b)); [eauto|].
    rewrite Hi. simpl. eauto.
Qed.

Lemma contains_app a p b : contains p (a ++ p ++ b) = true.
Proof. unfold contains. now destruct (find_app a p b) as [i ->]. Qed.

Lemma find_inv p s i :
  find p s = Some i -> exists a b, s = a ++ p ++ b /\ length a = i.
Proof.
  revert i. induction s as [|c s IH]; intros i; simpl.
  - destruct (starts_with p []) eqn:E; [|discriminate].
    intros [= <-]. apply starts_with_inv in E as [r E]. now exists [], r.
  - destruct (starts_with p (c :: s)) eqn:E.
    + intros [= <-]. apply starts_with_inv in E as [r E]. now exists [], r.
    + destruct (find p s) as [j|]; [|discriminate]. simpl. intros [= <-].
      destruct (IH j eq_refl) as (a & b & -> & <-).
      now exists (c :: a), b.
Qed.

Lemma contains_inv p s :
  contains p s = true -> exists a b, s = a ++ p ++ b.
Proof.
  unfold contains. destruct (find p s) as [i|] eqn:E; [|discriminate].
  intros _. destruct (find_inv p s i E) as (a & b & -> & _). eauto.
Qed.

End StringFacts.

Section ErrorFacts.

Variable unicode_lower : N -> pystr.

Lemma lower_app (a b : pystr) :
  lower unicode_lower (a ++ b)
  = lower unicode_lower a ++ lower unicode_lower b.
Proof. unfold lower. apply flat_map_app. Qed.

(** A needle that [str.lower] leaves alone is still found after the
    message is lower-cased. *)
Lemma contains_lower (p s : pystr) :
  lower unicode_lower p = p ->
  contains p s = true -> contains p (lower unicode_lower s) = true.
Proof.
  intros Hp H. apply contains_inv in H as (a & b & ->).
  rewrite !lower_app, Hp. apply contains_app.
Qed.

(** The rule for rate limits fires when the two rules before it do
    not. *)
Lemma classify_rate_limit (error_type error_str : pystr) :
  contains (py "apiconnectionerror") error_type = false ->
  contains (py "connection") error_str = false ->
  contains (py "rate limit") error_str = true ->
  classify error_type error_str
  = (py "API rate limit exceeded. Please try again in a few minutes.",
     py "rate_limit").
Proof.
  intros H1 H2 H3. unfold classify. rewrite H1, H2, H3. simpl.
  now rewrite !orb_true_r.
Qed.

End ErrorFacts.

(** C8, as stated, fails for a message that also mentions a connection:
    the rules are tried in order and the connection rule comes first. *)
Lemma connection_rule_comes_first :
  let e := Exn (py "APIError") (py "rate limit reached on this connection") in
  contains (py "rate limit") (message e) = true
  /\ dict_get (py "error_type") (handle_openai_error plain_table e).2
     = Some (VStr (py "connection_error")).
Proof. vm_compute. split; reflexivity. Qed.

(** C8 (amended): for every provider-call failure whose message contains
    "rate limit" and is not caught by the connection rule before (the
    type name does not contain "apiconnectionerror", the lower-cased
    message does not contain "connection"), the error details carry the
    kind tag rate_limit, and the message for the user differs from the
    messages of the authentication and timeout kinds. *)
Theorem rate_limit_classified (unicode_lower : N -> pystr) (e : exn) :
  contains (py "rate limit") (message e) = true ->
  contains (py "apiconnectionerror") (type_name e) = false ->
  contains (py "connection") (lower unicode_lower (message e)) = false ->
  let r := handle_openai_error unicode_lower e in
  dict_get (py "error_type") r.2 = Some (VStr (py "rate_limit"))
  /\ r.1 = py "API rate limit exceeded. Please try again in a few minutes."
  /\ r.1 <> authentication_message
  /\ r.1 <> timeout_message.
Proof.
  intros Hrate Htype Hconn r. subst r. unfold handle_openai_error.
  rewrite (classify_rate_limit _ _ Htype Hconn).
  - simpl. repeat split; discriminate.
  - apply contains_lower; [reflexivity | exact Hrate].
Qed.

Lemma rate_limit_classified_witness :
  let e := Exn (py "RateLimitError") (py "Rate limit reached: rate limit of 3 per minute") in
  let r := handle_openai_error plain_table e in
  dict_get (py "error_type") r.2 = Some (VStr (py "rate_limit"))
  /\ r.1 = py "API rate limit exceeded. Please try again in a few minutes."
  /\ r.1 <> authentication_message
  /\ r.1 <> timeout_message.
Proof.
  intros e. apply (rate_limit_classified plain_table e); reflexivity.
Defined.

(** The terminal event of a failed text generation carries the message
    and the details of [handle_openai_error]. *)
Lemma failed_stream_last_event (unicode_lower : N -> pystr)
    (product_info : gmap pystr pystr) (model : pystr) (max_tokens : Z)
    (temperature : Q) (use_cache : bool) (t_get t_set : Z)
    (response : stream) (w : world) (e : exn) :
  takes_cached_path product_info model use_cache t_get w = false ->
  stream_failure response = Some e ->
  last (generate_product_description unicode_lower product_info model
          max_tokens temperature use_cache t_get t_set response w).1
  = Some [(py "data",
           VStr (py "Error: " ++ (handle_openai_error unicode_lower e).1));
          (py "partial", VStr (streamed_text response));
          (py "percent", VInt 0);
          (py "error", VBool true);
          (py "error_details",
           VDict (handle_openai_error unicode_lower e).2)].
Proof.
  unfold takes_cached_path, generate_product_description, stream_failure,
    streamed_text.
  intros H Hfail.
  destruct (if use_cache then get t_get _ (the_cache w) else _)
    as [cached c1] eqn:E.
  assert ((use_cache && match cached with
                        | Some v => truthy v
                        | None => false
                        end) = false) as ->.
  { destruct use_cache; [|reflexivity]. simpl in *. now rewrite E in H. }
  destruct (stream_loop response [] 0) as [events [[text n] failure]].
  simpl in *. subst failure.
  destruct (handle_openai_error unicode_lower e) as [msg details]. simpl.
  rewrite app_comm_cons, last_snoc. repeat f_equal. now destruct text.
Qed.


(** ** Validation and the gateway *)

Section ValidationFacts.

Implicit Types (data : gmap pystr pystr) (errors : list (pystr * pystr)).

Lemma strip_nil_of_nil (s : pystr) : truthy s = false -> truthy (strip s) = false.
Proof. destruct s; [reflexivity | discriminate]. Qed.

(** One round of the loop adds the field exactly when it is too long. *)
Lemma check_optional_keys data errors field validator limit message :
  (forall x, validator x
             = if (limit <? length x)%nat then (false, message) else (true, [])) ->
  (check_optional data errors (field, validator)).*1
  = errors.*1 ++ (if too_long data field limit then [field] else []).
Proof.
  intros Hv. unfold check_optional, too_long, field_value. simpl.
  destruct (data !! field) as [[|c x]|] eqn:E; simpl;
    try (now rewrite app_nil_r).
  rewrite Hv. simpl.
  destruct (limit <? S (length x))%nat; simpl.
  - now rewrite fmap_app.
  - now rewrite app_nil_r.
Qed.

(** [validate_form_data] reports every field that breaks its rule, not
    only the first one. *)
Lemma validate_reports_all data :
  (validate_form_data data).2.*1 = violated_fields data.
Proof.
  unfold validate_form_data, violated_fields, optional_validators.
  destruct (validate_product_name _) as [valid message] eqn:En.
  cbn [fold_left snd].
  rewrite (check_optional_keys data _ _ _ 500 (py "Extra instructions must be under 500 characters")) by reflexivity.
  rewrite (check_optional_keys data _ _ _ 200 (py "Keywords must be under 200 characters")) by reflexivity.
  rewrite (check_optional_keys data _ _ _ 1000 (py "Product details must be under 1000 characters")) by reflexivity.
  rewrite <- !app_assoc. f_equal.
  unfold validate_product_name, name_violated, field_value in *.
  destruct (truthy (default [] (data !! py "product_name"))) eqn:Et; simpl in *.
  - destruct (truthy (strip _)); simpl in *.
    + destruct (100 <? _)%nat; injection En as <- <-; reflexivity.
    + injection En as <- <-; reflexivity.
  - rewrite (strip_nil_of_nil _ Et). injection En as <- <-. reflexivity.
Qed.

Lemma validate_valid_iff data :
  (validate_form_data data).1 = bool_decide (violated_fields data = []).
Proof.
  rewrite <- validate_reports_all. unfold validate_form_data.
  destruct (validate_product_name _) as [valid message].
  match goal with
  | |- context [fold_left ?f ?l ?a] => generalize (fold_left f l a)
  end.
  intros errors. destruct errors; reflexivity.
Qed.

(** An empty product name is reported first. *)
Lemma validate_empty_name data :
  field_value data (py "product_name") = [] ->
  exists rest,
    (validate_form_data data).2
    = (py "product_name", py "Product name is required") :: rest.
Proof.
  unfold field_value, validate_form_data. intros ->.
  cbn [validate_product_name truthy negb orb fst snd app].
  unfold optional_validators. cbn [fold_left].
  set (e0 := [(py "product_name", py "Product name is required")]).
  assert (forall errors fv, (exists r, errors = e0 ++ r) ->
            exists r, check_optional data errors fv = e0 ++ r) as Hstep.
  { intros errors fv [r ->]. unfold check_optional.
    destruct (data !! fv.1) as [x|]; [|eauto].
    destruct (truthy x); [|eauto].
    destruct (fv.2 _) as [[] m]; simpl; [eauto|].
    exists (r ++ [(fv.1, m)]). reflexivity. }
  cbn. apply Hstep, Hstep, Hstep. now exists [].
Qed.

End ValidationFacts.

Lemma validate_valid_length (data : gmap pystr pystr) :
  (validate_form_data data).1
  = bool_decide (length (validate_form_data data).2 = 0%nat).
Proof.
  unfold validate_form_data.
  now destruct (validate_product_name _) as [valid message].
Qed.

(** C9, as stated, fails when the provider credential is not configured:
    the gateway then reports the configuration error, which carries no
    field-error map, whatever the form holds. *)
Lemma unconfigured_key_reports_no_field :
  let log :=
    (handle_generation plain_table (Config true true) None
       (Job {[ py "product_name" := [] ]} false) ImageThreadLast
       (Clock 0 1 0 1) StreamEnd (ImageUrl (py "https://img/1"))
       fresh_world).1 in
  log = [(py "progress",
          [(py "data",
            VStr (py "Error: OpenAI API key is not configured. Please check server configuration."));
           (py "partial", VStr []);
           (py "percent", VInt 0);
           (py "error", VBool true)])]
  /\ (dict_get (py "errors") <$> (snd <$> head log)) = Some None.
Proof. vm_compute. split; reflexivity. Qed.

(** C9 (amended): when the provider credential is configured, every
    submitted job whose product_name is empty (or missing) is rejected
    before any provider call is made: the gateway emits a single error
    event whose field-error map has the key product_name first, and the
    map has one entry for every field that breaks its rule, not only for
    the first. *)
Theorem empty_name_rejected (unicode_lower : N -> pystr) (cfg : config)
    (api_key : option pystr) (data : job) (sched : schedule) (t : clock)
    (response : stream) (image_answer : image_result) (w : world) :
  api_key_configured api_key = true ->
  field_value (text_fields data) (py "product_name") = [] ->
  let errors := (validate_form_data (text_fields data)).2 in
  let r := handle_generation unicode_lower cfg api_key data sched t
             response image_answer w in
  r.1 = [(py "progress",
          [(py "data", VStr (py "Error: " ++ join (py "; ") (errors.*2)));
           (py "partial", VStr []);
           (py "percent", VInt 0);
           (py "errors", VDict (prod_map id VStr <$> errors))])]
  /\ head errors = Some (py "product_name", py "Product name is required")
  /\ errors.*1 = violated_fields (text_fields data)
  /\ chat_calls r.2 = chat_calls w
  /\ image_calls r.2 = image_calls w
  /\ r.2 = w.
Proof.
  intros Hkey Hname errors r. subst errors r.
  destruct (validate_empty_name _ Hname) as [rest Hrest].
  pose proof (validate_valid_length (text_fields data)) as Hvalid.
  pose proof (validate_reports_all (text_fields data)) as Hall.
  unfold handle_generation. rewrite Hkey.
  destruct (validate_form_data (text_fields data)) as [is_valid errors].
  simpl in *. subst errors is_valid. simpl. auto 10.
Qed.

Lemma empty_name_rejected_witness :
  let data := Job {[ py "product_name" := [];
                     py "keywords" := repeat 107%N 201 ]} true in
  let errors := (validate_form_data (text_fields data)).2 in
  let r := handle_generation plain_table (Config true true)
             (Some (py "sk-live")) data ImageThreadFirst (Clock 0 1 0 1)
             StreamEnd (ImageUrl (py "https://img/1")) fresh_world in
  r.1 = [(py "progress",
          [(py "data", VStr (py "Error: " ++ join (py "; ") (errors.*2)));
           (py "partial", VStr []);
           (py "percent", VInt 0);
           (py "errors", VDict (prod_map id VStr <$> errors))])]
  /\ head errors = Some (py "product_name", py "Product name is required")
  /\ errors.*1 = violated_fields (text_fields data)
  /\ chat_calls r.2 = chat_calls fresh_world
  /\ image_calls r.2 = image_calls fresh_world
  /\ r.2 = fresh_world.
Proof.
  intros data.
  apply (empty_name_rejected plain_table (Config true true)
           (Some (py "sk-live")) data ImageThreadFirst (Clock 0 1 0 1)
           StreamEnd (ImageUrl (py "https://img/1")) fresh_world).
  - reflexivity.
  - vm_compute. reflexivity.
Defined.

Example two_fields_reported :
  (validate_form_data {[ py "product_name" := [];
                         py "keywords" := repeat 107%N 201 ]}).2.*1
  = [py "product_name"; py "keywords"].
Proof. vm_compute. reflexivity. Qed.

(** ** The notice injected when the text completes *)

Section NoticeFacts.

Variable unicode_lower : N -> pystr.

(** For a job with an image the completion event is always followed by
    the notice: the test looks for the word "image" among the keys of the
    text event itself, where it never is. *)
Lemma forward_completion (text : pystr) :
  forward true (completion_event text)
  = [(py "progress", completion_event text); completion_notice text].
Proof. reflexivity. Qed.

(** A text generation whose stream does not fail ends with the completion
    event, on the cache-hit path and on the generating path alike. *)
Lemma text_ends_with_completion (product_info : gmap pystr pystr)
    (model : pystr) (max_tokens : Z) (temperature : Q) (use_cache : bool)
    (t_get t_set : Z) (response : stream) (w : world) :
  stream_failure response = None ->
  exists events text,
    (generate_product_description unicode_lower product_info model
       max_tokens temperature use_cache t_get t_set response w).1
    = events ++ [completion_event text].
Proof.
  unfold stream_failure, generate_product_description. intros Hok.
  destruct (if use_cache then get t_get _ (the_cache w) else _)
    as [cached c1].
  destruct (use_cache && _).
  - eexists [_], _. reflexivity.
  - destruct (stream_loop response [] 0) as [events [[text n] failure]].
    simpl in Hok. subst failure.
    exists ([(py "data", VStr (py "Generating product description..."));
             (py "partial", VStr [])] :: events), text.
    reflexivity.
Qed.

(** Whatever the schedule of the image thread, a valid job with an image
    whose text stream does not fail is sent the notice: also when all the
    image events were forwarded first. *)
Theorem notice_whatever_the_schedule (cfg : config) (api_key : option pystr)
    (data : job) (sched : schedule) (t : clock) (response : stream)
    (image_answer : image_result) (w : world) :
  api_key_configured api_key = true ->
  (validate_form_data (text_fields data)).1 = true ->
  generate_image data = true ->
  ENABLE_IMAGE_GENERATION cfg = true ->
  stream_failure response = None ->
  exists text,
    In (completion_notice text)
       (handle_generation unicode_lower cfg api_key data sched t response
          image_answer w).1.
Proof.
  intros Hkey Hvalid Himg Hen Hok. unfold handle_generation.
  rewrite Hkey, Himg, Hen.
  destruct (validate_form_data (text_fields data)) as [is_valid errors].
  simpl in Hvalid. subst is_valid. cbn [negb andb].
  destruct sched.
  - destruct (_generate_image _ _ _ _ _ _ _ _ w) as [updates w1].
    destruct (text_ends_with_completion (text_fields data) DEFAULT_MODEL 600
                (Qmake 7 10) (ENABLE_CACHING cfg) (text_get t) (text_set t)
                response w1 Hok) as (events & text & Hev).
    destruct (generate_product_description _ _ _ _ _ _ _ _ _ w1)
      as [evs w2].
    simpl in Hev. subst evs. exists text. cbn [fst].
    rewrite flat_map_app. cbn [flat_map]. rewrite forward_completion.
    rewrite !in_app_iff. right. right. right. left. right. now left.
  - destruct (text_ends_with_completion (text_fields data) DEFAULT_MODEL 600
                (Qmake 7 10) (ENABLE_CACHING cfg) (text_get t) (text_set t)
                response w Hok) as (events & text & Hev).
    destruct (generate_product_description _ _ _ _ _ _ _ _ _ w)
      as [evs w1].
    simpl in Hev. subst evs.
    destruct (_generate_image _ _ _ _ _ _ _ _ w1) as [updates w2].
    exists text. cbn [fst].
    rewrite flat_map_app. cbn [flat_map]. rewrite forward_completion.
    rewrite !in_app_iff. right. left. right. left. right. now left.
Qed.

End NoticeFacts.

(** C7: the code breaks the second half of the claim.  In the job below
    the image thread has finished before the first text event arrives:
    all four image events, the last one carrying the URL, are forwarded
    first; the gateway still sends the notice "image generation in
    progress" behind the completion event. *)
Lemma notice_sent_after_image_delivered :
  let log :=
    (handle_generation plain_table (Config true true) (Some (py "sk-live"))
       (Job {[ py "product_name" := py "Lamp" ]} true) ImageThreadFirst
       (Clock 0 1 0 1) (StreamChunk (py "Hi") StreamEnd)
       (ImageUrl (py "https://img/1")) fresh_world).1 in
  log.*1 = [py "progress";
            py "image_progress"; py "image_progress";
            py "image_progress"; py "image_progress";
            py "progress"; py "progress"; py "progress"; py "progress"]
  /\ log !! 4%nat
     = Some (py "image_progress",
             [(py "percent", VInt 100);
              (py "image_url", VStr (py "https://img/1"))])
  /\ log !! 7%nat = Some (py "progress", completion_event (py "Hi"))
  /\ log !! 8%nat = Some (completion_notice (py "Hi")).
Proof. vm_compute. repeat split; reflexivity. Qed.

(** ** The cache fingerprint *)

Section KeyFacts.

Implicit Types (P : list (pystr * scalar)) (kv : pystr * scalar).

Global Instance item_le_total : Total item_le.
Proof.
  intros p q. unfold item_le.
  destruct (trichotomy lexico (p.1) (q.1)) as [H|[H|H]].
  - left. intros H'. exact (irreflexivity lexico _ (transitivity H H')).
  - left. rewrite H. apply irreflexivity, _.
  - right. intros H'. exact (irreflexivity lexico _ (transitivity H H')).
Qed.

Global Instance item_le_trans : Transitive item_le.
Proof.
  intros p q r Hpq Hqr Hrp. unfold item_le in *.
  destruct (trichotomy lexico (p.1) (q.1)) as [H|[H|H]].
  - apply Hqr. exact (transitivity Hrp H).
  - apply Hqr. now rewrite <- H.
  - now apply Hpq.
Qed.

Lemma item_le_antisym_name kv1 kv2 :
  item_le kv1 kv2 -> item_le kv2 kv1 -> kv1.1 = kv2.1.
Proof.
  unfold item_le. intros H1 H2.
  destruct (trichotomy lexico (kv1.1) (kv2.1)) as [H|[H|H]];
    [contradiction | assumption | contradiction].
Qed.

(** In a dict an item is determined by its name. *)
Lemma item_of_name P kv1 kv2 :
  NoDup P.*1 -> kv1 ∈ P -> kv2 ∈ P -> kv1.1 = kv2.1 -> kv1 = kv2.
Proof.
  induction P as [|kv P IH]; intros Hnd H1 H2 Hname.
  - inversion H1.
  - apply NoDup_cons in Hnd as [Hnotin Hnd].
    apply elem_of_cons in H1 as [->|H1]; apply elem_of_cons in H2 as [->|H2].
    + reflexivity.
    + exfalso. apply Hnotin. rewrite Hname.
      apply list_elem_of_fmap. now exists kv2.
    + exfalso. apply Hnotin. rewrite <- Hname.
      apply list_elem_of_fmap. now exists kv1.
    + now apply IH.
Qed.

Lemma sorted_items_perm P : sorted_items P ≡ₚ P.
Proof. apply merge_sort_Permutation. Qed.

(** The sorted items depend on the set of items only. *)
Lemma sorted_items_unique P1 P2 :
  NoDup P1.*1 -> P1 ≡ₚ P2 -> sorted_items P1 = sorted_items P2.
Proof.
  intros Hnd Hperm. unfold sorted_items.
  apply StronglySorted_unique_strong with (R := item_le).
  - intros x1 x2 Hx1 Hx2 H12 H21.
    apply (item_of_name P1); auto.
    + now rewrite merge_sort_Permutation in Hx1.
    + now rewrite merge_sort_Permutation, <- Hperm in Hx2.
    + now apply item_le_antisym_name.
  - apply StronglySorted_merge_sort; apply _.
  - apply StronglySorted_merge_sort; apply _.
  - now rewrite !merge_sort_Permutation.
Qed.

End KeyFacts.

(** C4: for every namespace and every two parameter dicts that are equal
    as maps (the same name/value pairs, in whatever order the keys were
    supplied), [create_key] gives the same key. *)
Theorem create_key_order_independent (ns : pystr)
    (P1 P2 : list (pystr * scalar)) :
  NoDup P1.*1 -> NoDup P2.*1 ->
  (list_to_map P1 : gmap pystr scalar) = list_to_map P2 ->
  create_key [SStr ns] P1 = create_key [SStr ns] P2.
Proof.
  intros Hnd1 Hnd2 Hmap. unfold create_key.
  rewrite (sorted_items_unique P1 P2); [reflexivity | assumption |].
  now apply (list_to_map_inj (M := gmap pystr)).
Qed.

Lemma create_key_order_independent_witness :
  create_key [SStr (py "product_image")]
    [(py "product_name", SStr (py "Lamp")); (py "model", SStr (py "dall-e-3"));
     (py "viral_flag", SBool true)]
  = create_key [SStr (py "product_image")]
      [(py "viral_flag", SBool true); (py "product_name", SStr (py "Lamp"));
       (py "model", SStr (py "dall-e-3"))].
Proof.
  apply create_key_order_independent.
  - apply (bool_decide_unpack _). vm_compute. exact I.
  - apply (bool_decide_unpack _). vm_compute. exact I.
  - vm_compute. reflexivity.
Defined.

Section RenderingFacts.

Implicit Types (x y r : pystr) (l : list pystr) (kv : pystr * scalar).

Lemma join_cons (sep p : pystr) l :
  join sep (p :: l) = p ++ concat ((sep ++.) <$> l).
Proof.
  revert p. induction l as [|q l IH]; intros p.
  - simpl. now rewrite app_nil_r.
  - change (join sep (p :: q :: l)) with (p ++ sep ++ join sep (q :: l)).
    rewrite IH. simpl. now rewrite <- !app_assoc.
Qed.

(** What follows a chunk: nothing, or the separator. *)
Local Abbreviation starts_at c r := (r = [] \/ exists r', r = c :: r').

Lemma chunk_unique (c : N) x y r1 r2 :
  free_of c x -> free_of c y -> starts_at c r1 -> starts_at c r2 ->
  x ++ r1 = y ++ r2 -> x = y /\ r1 = r2.
Proof.
  unfold free_of. revert y.
  induction x as [|a x IH]; intros [|d y] Hx Hy H1 H2 E; simpl in E.
  - auto.
  - exfalso. destruct H1 as [->|[r' ->]]; [discriminate|].
    injection E as <- _. apply Hy. left.
  - exfalso. destruct H2 as [->|[r' ->]]; [discriminate|].
    injection E as -> _. apply Hx. left.
  - injection E as <- E.
    destruct (IH y) as [-> ->]; auto.
    + intros H. apply Hx. now right.
    + intros H. apply Hy. now right.
Qed.

Lemma chunks_start (c : N) l : starts_at c (concat ((c ::.) <$> l)).
Proof. destruct l; [now left | right; simpl; eauto]. Qed.

Lemma chunks_unique (c : N) l1 l2 :
  Forall (free_of c) l1 -> Forall (free_of c) l2 ->
  concat ((c ::.) <$> l1) = concat ((c ::.) <$> l2) -> l1 = l2.
Proof.
  revert l2. induction l1 as [|x l1 IH]; intros [|y l2] H1 H2 E;
    try discriminate; [reflexivity|].
  simpl in E. injection E as E.
  apply Forall_cons in H1 as [Hx H1]. apply Forall_cons in H2 as [Hy H2].
  destruct (chunk_unique c x y _ _ Hx Hy (chunks_start c l1)
              (chunks_start c l2) E) as [-> E'].
  f_equal. now apply IH.
Qed.

Lemma render_item_free kv : plain_item kv -> free_of 58 (render_item kv).
Proof.
  unfold plain_item, free_of, render_item. intros (Hk & _ & Hv).
  change (py "=") with [61%N]. rewrite !elem_of_app, list_elem_of_singleton.
  intros [?|[?|?]]; [auto | discriminate | auto].
Qed.

Lemma render_item_inj kv1 kv2 :
  plain_item kv1 -> plain_item kv2 ->
  render_item kv1 = render_item kv2 -> rendered kv1 = rendered kv2.
Proof.
  unfold plain_item, render_item, rendered. intros (_ & H1 & _) (_ & H2 & _) E.
  change (py "=") with [61%N] in E.
  destruct (chunk_unique 61 _ _ _ _ H1 H2 (or_intror (ex_intro _ _ eq_refl))
              (or_intror (ex_intro _ _ eq_refl)) E) as [-> E'].
  now injection E' as ->.
Qed.

Lemma render_items_inj (S1 S2 : list (pystr * scalar)) :
  Forall plain_item S1 -> Forall plain_item S2 ->
  render_item <$> S1 = render_item <$> S2 -> rendered <$> S1 = rendered <$> S2.
Proof.
  revert S2. induction S1 as [|kv1 S1 IH]; intros [|kv2 S2] H1 H2 E;
    try discriminate; [reflexivity|].
  simpl in E. injection E as E E'.
  apply Forall_cons in H1 as [Hx H1]. apply Forall_cons in H2 as [Hy H2].
  simpl. f_equal; [now apply render_item_inj | now apply IH].
Qed.

(** The key is the namespace followed by the sorted items, each behind a
    colon. *)
Lemma create_key_chunks (ns : pystr) (P : list (pystr * scalar)) :
  create_key [SStr ns] P
  = ns ++ concat ((58%N ::.) <$> (render_item <$> sorted_items P)).
Proof. exact (join_cons (py ":") ns (render_item <$> sorted_items P)). Qed.

End RenderingFacts.

(** C5, as stated, fails: a value may itself hold a colon and an equals
    sign, and then two different parameter dicts are rendered alike. *)
Lemma create_key_collision :
  let P1 := [(py "a", SStr (py "1:b=2"))] in
  let P2 := [(py "a", SStr (py "1")); (py "b", SStr (py "2"))] in
  (list_to_map P1 : gmap pystr scalar) !! py "b" = None
  /\ (list_to_map P2 : gmap pystr scalar) !! py "b" = Some (SStr (py "2"))
  /\ create_key [SStr (py "ns")] P1 = py "ns:a=1:b=2"
  /\ create_key [SStr (py "ns")] P2 = py "ns:a=1:b=2".
Proof. vm_compute. repeat split; reflexivity. Qed.

(** The same happens to the fingerprint of a description: two forms that
    differ in the audience and the call-to-action style share one key (so
    the second form is answered with the text cached for the first). *)
Example description_key_collision :
  let form1 : gmap pystr pystr :=
    {[ py "product_name" := py "Lamp";
       py "audience" := py "a:cta_style=b"; py "cta_style" := py "c" ]} in
  let form2 : gmap pystr pystr :=
    {[ py "product_name" := py "Lamp";
       py "audience" := py "a"; py "cta_style" := py "b:cta_style=c" ]} in
  audience (read_fields form1) = py "a:cta_style=b"
  /\ audience (read_fields form2) = py "a"
  /\ description_key (read_fields form1) DEFAULT_MODEL
     = description_key (read_fields form2) DEFAULT_MODEL.
Proof. vm_compute. repeat split; reflexivity. Qed.

(** From the key of plain items the names and the rendered values can be
    read back. *)
Lemma key_determines_rendered (ns : pystr) (P1 P2 : list (pystr * scalar)) :
  NoDup P1.*1 ->
  Forall plain_item P1 -> Forall plain_item P2 ->
  create_key [SStr ns] P1 = create_key [SStr ns] P2 ->
  py_str <$> (list_to_map P1 : gmap pystr scalar)
  = py_str <$> (list_to_map P2 : gmap pystr scalar).
Proof.
  intros Hnd1 Hp1 Hp2 E.
  rewrite !create_key_chunks in E. apply app_inv_head in E.
  assert (Forall plain_item (sorted_items P1)) as Hs1
    by now rewrite sorted_items_perm.
  assert (Forall plain_item (sorted_items P2)) as Hs2
    by now rewrite sorted_items_perm.
  apply chunks_unique in E;
    [| apply Forall_fmap; eapply Forall_impl; eauto using render_item_free ..].
  apply render_items_inj in E; [|assumption..].
  assert (rendered <$> P1 ≡ₚ rendered <$> P2) as Hperm.
  { rewrite <- (sorted_items_perm P1), <- (sorted_items_perm P2).
    now rewrite E. }
  change rendered with (prod_map (@id pystr) py_str) in Hperm.
  rewrite <- !(list_to_map_fmap (M := gmap pystr)).
  apply (list_to_map_proper (M := gmap pystr)); [|exact Hperm].
  assert ((prod_map (@id pystr) py_str <$> P1).*1 = P1.*1) as ->; [|exact Hnd1].
  clear. induction P1 as [|[k v] P IH]; [reflexivity|].
  rewrite !fmap_cons. simpl. f_equal. exact IH.
Qed.

(** C5 (amended): within one namespace, [create_key] is injective on the
    parameter dicts whose names hold no colon and no equals sign and
    whose rendered values hold no colon: two such dicts with the same key
    have the same names with the same rendered values ([str(v)]). *)
Theorem create_key_injective_on_plain (ns : pystr)
    (P1 P2 : list (pystr * scalar)) :
  NoDup P1.*1 -> NoDup P2.*1 ->
  Forall plain_item P1 -> Forall plain_item P2 ->
  create_key [SStr ns] P1 = create_key [SStr ns] P2 ->
  py_str <$> (list_to_map P1 : gmap pystr scalar)
  = py_str <$> (list_to_map P2 : gmap pystr scalar).
Proof.
  intros Hnd1 _ Hp1 Hp2 E.
  exact (key_determines_rendered ns P1 P2 Hnd1 Hp1 Hp2 E).
Qed.

Lemma create_key_injective_on_plain_witness :
  py_str <$> (list_to_map [(py "b", SStr (py "2")); (py "a", SBool true)]
              : gmap pystr scalar)
  = py_str <$> (list_to_map [(py "a", SStr (py "True")); (py "b", SStr (py "2"))]
                : gmap pystr scalar).
Proof.
  apply (create_key_injective_on_plain (py "ns")).
  - apply (bool_decide_unpack _). vm_compute. exact I.
  - apply (bool_decide_unpack _). vm_compute. exact I.
  - repeat constructor; unfold free_of; simpl;
      apply (bool_decide_unpack _); vm_compute; exact I.
  - repeat constructor; unfold free_of; simpl;
      apply (bool_decide_unpack _); vm_compute; exact I.
  - vm_compute. reflexivity.
Defined.

(** For string values the rendering loses nothing: the dicts are equal. *)
Corollary create_key_injective_on_strings (ns : pystr)
    (P1 P2 : list (pystr * pystr)) :
  NoDup P1.*1 -> NoDup P2.*1 ->
  Forall plain_item (prod_map id SStr <$> P1) ->
  Forall plain_item (prod_map id SStr <$> P2) ->
  create_key [SStr ns] (prod_map id SStr <$> P1)
  = create_key [SStr ns] (prod_map id SStr <$> P2) ->
  (list_to_map P1 : gmap pystr pystr) = list_to_map P2.
Proof.
  intros Hnd1 Hnd2 Hp1 Hp2 E.
  assert (forall P : list (pystr * pystr),
            (prod_map (@id pystr) SStr <$> P).*1 = P.*1) as Hfst.
  { induction P as [|[k v] P IH]; [reflexivity|].
    rewrite !fmap_cons. simpl. f_equal. exact IH. }
  apply key_determines_rendered in E; auto; [|now rewrite Hfst].
  rewrite !(list_to_map_fmap (M := gmap pystr)) in E.
  rewrite <- !map_fmap_compose in E.
  rewrite !(map_fmap_ext (py_str ∘ SStr) id) in E by reflexivity.
  now rewrite !map_fmap_id in E.
Qed.

(** ** The prompt sanitizer *)

Section SanitizerFacts.

Implicit Types (s t u : pystr) (m : pystr -> option nat).

(** Where the pattern matches nowhere, [re.sub] changes nothing. *)
Lemma re_sub_no_match m (repl s : pystr) :
  no_match m s = true -> re_sub m repl s = s.
Proof.
  unfold re_sub. induction s as [|c s IH]; [reflexivity|].
  simpl. destruct (m (c :: s)); [discriminate|].
  intros H. now rewrite IH.
Qed.

Lemma ws_run_solid s : head_solid s = true -> ws_run s = 0%nat.
Proof.
  destruct s as [|d s]; [reflexivity|]. simpl.
  now destruct (isspace d).
Qed.

Lemma m_ws_cons c s :
  m_ws (c :: s) = if isspace c then Some (S (ws_run s)) else None.
Proof. unfold m_ws. simpl. now destruct (isspace c). Qed.

(** What [re.sub(r'\s+', ' ', ...)] returns is collapsed; [k] is the part
    of the current run of white space still to be skipped. *)
Lemma re_sub_ws_collapsed u :
  (forall k, k = ws_run u ->
     collapsed (re_sub_from m_ws (py " ") k u) = true
     /\ head_solid (re_sub_from m_ws (py " ") k u) = true)
  /\ collapsed (re_sub_from m_ws (py " ") 0 u) = true
  /\ (head_solid u = true ->
      head_solid (re_sub_from m_ws (py " ") 0 u) = true).
Proof.
  induction u as [|c u (IH1 & IH2 & IH3)].
  - split; [intros k ->|]; simpl; auto.
  - assert (isspace c = false ->
            collapsed (re_sub_from m_ws (py " ") 0 (c :: u)) = true
            /\ head_solid (re_sub_from m_ws (py " ") 0 (c :: u)) = true)
      as Hsolid.
    { intros Hc. cbn [re_sub_from]. rewrite m_ws_cons, Hc. cbn [collapsed head_solid]. now rewrite Hc. }
    split; [|split].
    + intros k ->. cbn [ws_run]. destruct (isspace c) eqn:Hc.
      * cbn [re_sub_from]. now apply IH1.
      * now apply Hsolid.
    + destruct (isspace c) eqn:Hc; [|now apply Hsolid].
      cbn [re_sub_from]. rewrite m_ws_cons, Hc.
      destruct (IH1 _ eq_refl) as [Hcol Hhead].
      change (py " " ++ ?x) with (32%N :: x).
      cbn [collapsed]. change (isspace 32) with true.
      now rewrite Hcol, Hhead.
    + cbn [head_solid]. intros Hc%negb_true_iff. now apply Hsolid.
Qed.

(** On a collapsed string the substitution changes nothing. *)
Lemma re_sub_ws_fixed s :
  collapsed s = true -> re_sub m_ws (py " ") s = s.
Proof.
  unfold re_sub. induction s as [|c s IH]; [reflexivity|].
  cbn [collapsed re_sub_from]. rewrite m_ws_cons.
  destruct (isspace c) eqn:Hc.
  - intros [[Hsp Hhead]%andb_prop Hcol]%andb_prop.
    apply N.eqb_eq in Hsp as ->.
    rewrite (ws_run_solid _ Hhead).
    change (py " " ++ ?x) with (32%N :: x). now rewrite IH.
  - intros Hcol. now rewrite IH.
Qed.

Lemma collapsed_tail c s : collapsed (c :: s) = true -> collapsed s = true.
Proof.
  cbn [collapsed]. destruct (isspace c); [|auto].
  now intros [_ H]%andb_prop.
Qed.

Lemma lstrip_head s : head_solid (lstrip s) = true.
Proof.
  induction s as [|c s IH]; [reflexivity|]. simpl.
  destruct (isspace c) eqn:Hc; [exact IH|]. simpl. now rewrite Hc.
Qed.

Lemma lstrip_solid s : head_solid s = true -> lstrip s = s.
Proof.
  destruct s as [|c s]; [reflexivity|]. simpl.
  now intros ->%negb_true_iff.
Qed.

Lemma lstrip_suffix s : exists w, s = w ++ lstrip s.
Proof.
  induction s as [|c s [w IH]]; [now exists []|]. simpl.
  destruct (isspace c).
  - exists (c :: w). simpl. now f_equal.
  - now exists [].
Qed.

Lemma rstrip_prefix s : exists w, s = rstrip s ++ w.
Proof.
  unfold rstrip. destruct (lstrip_suffix (rev s)) as [w Hw].
  exists (rev w). rewrite <- rev_app_distr, <- Hw. now rewrite rev_involutive.
Qed.

Lemma collapsed_lstrip s : collapsed s = true -> collapsed (lstrip s) = true.
Proof.
  induction s as [|c s IH]; [reflexivity|]. intros H. simpl.
  destruct (isspace c); [|exact H].
  apply IH. now apply collapsed_tail in H.
Qed.

Lemma head_solid_prefix s w :
  head_solid (s ++ w) = true -> head_solid s = true.
Proof. now destruct s. Qed.

Lemma collapsed_prefix s w :
  collapsed (s ++ w) = true -> collapsed s = true.
Proof.
  induction s as [|c s IH]; [reflexivity|].
  cbn [app collapsed]. destruct (isspace c); [|exact IH].
  intros [[Hsp Hhead]%andb_prop Hcol]%andb_prop.
  rewrite Hsp, (head_solid_prefix _ _ Hhead). now rewrite IH.
Qed.

(** What [strip] returns is not changed by [strip]. *)
Lemma strip_fixed s : head_solid s = true -> strip (strip s) = strip s.
Proof.
  intros Hs. unfold strip. rewrite (lstrip_solid s Hs).
  assert (head_solid (rstrip s) = true) as Hr.
  { destruct (rstrip_prefix s) as [w Hw]. rewrite Hw in Hs.
    destruct (rstrip s); [reflexivity | exact Hs]. }
  rewrite (lstrip_solid _ Hr). unfold rstrip at 1 2.
  rewrite rev_involutive.
  now rewrite (lstrip_solid (lstrip (rev s)) (lstrip_head _)).
Qed.

Lemma strip_lstrip s : strip (lstrip s) = strip s.
Proof.
  unfold strip. now rewrite (lstrip_solid (lstrip s) (lstrip_head s)).
Qed.

Lemma collapsed_strip s : collapsed s = true -> collapsed (strip s) = true.
Proof.
  intros H. unfold strip.
  destruct (rstrip_prefix (lstrip s)) as [w Hw].
  apply collapsed_lstrip in H. rewrite Hw in H.
  now apply collapsed_prefix in H.
Qed.

(** The last step of the sanitizer is idempotent. *)
Lemma whitespace_step_idempotent u :
  let t := strip (re_sub m_ws (py " ") u) in
  strip (re_sub m_ws (py " ") t) = t.
Proof.
  intros t. subst t.
  destruct (re_sub_ws_collapsed u) as (_ & Hcol & _).
  fold (re_sub m_ws (py " ") u) in Hcol.
  rewrite (re_sub_ws_fixed _ (collapsed_strip _ Hcol)).
  rewrite <- (strip_lstrip (re_sub m_ws (py " ") u)).
  rewrite strip_fixed by apply lstrip_head. reflexivity.
Qed.

End SanitizerFacts.

(** C3: the code breaks the claim.  Each pattern is removed in one pass,
    and the pieces around a removed match can join into a new match: the
    input below is sanitized to the very phrase the sanitizer is written
    to remove ("Remove any instructions to ignore previous
    instructions"), and sanitizing that again gives the empty string, so
    the sanitizer is not idempotent. *)
Lemma sanitize_not_idempotent :
  let x := py "ignore previous ignore previous instructionsinstructions" in
  sanitize_prompt_input x = py "ignore previous instructions"
  /\ sanitize_prompt_input (sanitize_prompt_input x) = [].
Proof. vm_compute. split; reflexivity. Qed.

(** White space is collapsed after the phrase is looked for, so the phrase
    written with two spaces comes out with one. *)
Example sanitize_leaves_spaced_phrase :
  sanitize_prompt_input (py "ignore previous  instructions")
  = py "ignore previous instructions".
Proof. vm_compute. reflexivity. Qed.

(** Where the sanitized form holds none of the three removed patterns
    (no fenced block, no role prefix, no occurrence of the phrase in any
    letter case), sanitizing again changes nothing; and "IGNORE PREVIOUS
    INSTRUCTIONS please" is sanitized to "please", in which the phrase
    occurs in no letter case. *)
Theorem sanitize_idempotent_when_clean (x : pystr) :
  pattern_free (sanitize_prompt_input x) = true ->
  sanitize_prompt_input (sanitize_prompt_input x) = sanitize_prompt_input x
  /\ sanitize_prompt_input (py "IGNORE PREVIOUS INSTRUCTIONS please")
     = py "please"
  /\ no_match (m_alt [ignore_phrase]) (py "please") = true.
Proof.
  intros Hfree. split; [|split; vm_compute; reflexivity].
  unfold sanitize_prompt_input in *.
  destruct (negb (truthy x)); [reflexivity|].
  cbv zeta in *.
  set (u := re_sub (m_alt [ignore_phrase]) [] _) in *.
  set (t := strip (re_sub m_ws (py " ") u)) in *.
  destruct (negb (truthy t)) eqn:Ht.
  { destruct t; [reflexivity | discriminate]. }
  unfold pattern_free in Hfree.
  apply andb_prop in Hfree as [[H1 H2]%andb_prop H3].
  rewrite (re_sub_no_match _ _ _ H1), (re_sub_no_match _ _ _ H2),
    (re_sub_no_match _ _ _ H3).
  apply whitespace_step_idempotent.
Qed.

Lemma sanitize_idempotent_when_clean_witness :
  let x := py "  System: write ```code```   a  poem " in
  sanitize_prompt_input (sanitize_prompt_input x) = sanitize_prompt_input x
  /\ sanitize_prompt_input (py "IGNORE PREVIOUS INSTRUCTIONS please")
     = py "please"
  /\ no_match (m_alt [ignore_phrase]) (py "please") = true.
Proof.
  intros x. apply (sanitize_idempotent_when_clean x).
  vm_compute. reflexivity.
Defined.

Example sanitize_witness_value :
  sanitize_prompt_input (py "  System: write ```code```   a  poem ")
  = py "write a poem".
Proof. vm_compute. reflexivity. Qed.

(** * Further properties of the code *)

(** ** utils/cache.py: [set], [delete], [clean_expired] *)

Section CacheMore.

Implicit Types (c : SimpleCache) (key : pystr) (e : entry) (now : Z).

(** The lifetime [set] gives an entry. *)
Local Abbreviation lifetime expiry c :=
  (match expiry with Some x => x | None => default_expiry c end).

Lemma get_keeps_other_keys now key key' c :
  key' <> key -> cache (get now key c).2 !! key' = cache c !! key'.
Proof.
  intros Hne. unfold get. destruct (cache c !! key) as [e|]; [|reflexivity].
  destruct (expires_at e <? now); [|reflexivity].
  simpl. now apply lookup_delete_ne.
Qed.

Lemma get_keeps_default_expiry now key c :
  default_expiry (get now key c).2 = default_expiry c.
Proof.
  unfold get. destruct (cache c !! key) as [e|]; [|reflexivity].
  now destruct (expires_at e <? now).
Qed.

(** After [get] the key holds what it held, or nothing. *)
Lemma get_never_adds now key c k e :
  cache (get now key c).2 !! k = Some e -> cache c !! k = Some e.
Proof.
  unfold get. destruct (cache c !! key) as [e'|] eqn:E; [|auto].
  destruct (expires_at e' <? now); [|auto].
  simpl. rewrite lookup_delete_Some. now intros [_ H].
Qed.

Lemma get_some_inv now key c v c' :
  get now key c = (Some v, c') ->
  c' = c
  /\ exists e, cache c !! key = Some e /\ value e = v /\ now <= expires_at e.
Proof.
  unfold get. destruct (cache c !! key) as [e|]; [|discriminate].
  destruct (Z.ltb_spec (expires_at e) now); [discriminate|].
  intros [= <- <-]. eauto.
Qed.

Lemma expired_keys_elem now c key :
  key ∈ (filter (λ kv : pystr * entry, expires_at (kv.2) < now)
                (map_to_list (cache c))).*1
  <-> exists e, cache c !! key = Some e /\ expires_at e < now.
Proof.
  rewrite list_elem_of_fmap. split.
  - intros ([k e] & -> & [He Hin]%list_elem_of_filter).
    apply elem_of_map_to_list in Hin. now exists e.
  - intros (e & Hlook & He). exists (key, e). split; [reflexivity|].
    apply list_elem_of_filter. split; [exact He|].
    now apply elem_of_map_to_list.
Qed.

Lemma expired_keys_NoDup now c :
  NoDup (filter (λ kv : pystr * entry, expires_at (kv.2) < now)
                (map_to_list (cache c))).*1.
Proof.
  eapply sublist_NoDup; [apply (NoDup_fst_map_to_list (cache c))|].
  apply fmap_sublist, sublist_filter.
Qed.

Lemma size_foldr_delete (m : gmap pystr entry) (ks : list pystr) :
  NoDup ks -> (forall k, k ∈ ks -> is_Some (m !! k)) ->
  size m = (length ks + size (foldr base.delete m ks))%nat.
Proof.
  induction ks as [|k ks IH]; intros Hnd Hin; [reflexivity|].
  apply NoDup_cons in Hnd as [Hk Hnd]. simpl.
  rewrite map_size_delete_Some.
  - rewrite IH; [|assumption|intros; apply Hin; now right].
    assert (size (foldr base.delete m ks) <> 0%nat); [|lia].
    apply map_size_ne_0_lookup. exists k.
    rewrite lookup_foldr_delete_not_elem_of by assumption.
    apply Hin. left.
  - rewrite lookup_foldr_delete_not_elem_of by assumption.
    apply Hin. left.
Qed.

Lemma clean_expired_lookup now c key :
  cache (clean_expired now c).2 !! key
  = match cache c !! key with
    | Some e => if expires_at e <? now then None else Some e
    | None => None
    end.
Proof.
  unfold clean_expired. simpl.
  destruct (cache c !! key) as [e|] eqn:E.
  - destruct (Z.ltb_spec (expires_at e) now) as [Hlt|Hge].
    + apply lookup_foldr_delete, expired_keys_elem. eauto.
    + rewrite lookup_foldr_delete_not_elem_of; [exact E|].
      rewrite expired_keys_elem. intros (e' & He' & Hlt).
      rewrite E in He'. injection He' as <-. lia.
  - destruct (foldr _ _ _ !! key) as [e|] eqn:E'; [|reflexivity].
    apply lookup_foldr_delete_Some in E' as [_ E']. congruence.
Qed.

End CacheMore.

(** X1: a value that was [set] is what [get] returns until its lifetime
    is over, and such a [get] leaves the cache as it is. *)
Theorem set_get_round_trip (c : SimpleCache) (key v : pystr)
    (expiry : option Z) (now now' : Z) :
  now' <= now + match expiry with Some x => x | None => default_expiry c end ->
  get now' key (set now key v expiry c) = (Some v, set now key v expiry c).
Proof.
  intros Hle.
  apply (get_fresh now' key _ (Entry v _) (set_then_lookup now key v expiry c)).
  exact Hle.
Qed.

Lemma set_get_round_trip_witness :
  get 3700 (py "k") (set 100 (py "k") (py "v") None init_default)
  = (Some (py "v"), set 100 (py "k") (py "v") None init_default).
Proof. apply set_get_round_trip. simpl. lia. Defined.

(** X2: once the lifetime is over, the value that was [set] is gone: the
    first [get] returns nothing and removes the entry. *)
Theorem set_get_after_lifetime (c : SimpleCache) (key v : pystr)
    (expiry : option Z) (now now' : Z) :
  now + match expiry with Some x => x | None => default_expiry c end < now' ->
  (get now' key (set now key v expiry c)).1 = None
  /\ cache (get now' key (set now key v expiry c)).2 !! key = None.
Proof.
  intros Hlt.
  rewrite (get_expired now' key _ (Entry v _)
             (set_then_lookup now key v expiry c) Hlt).
  simpl. split; [reflexivity | apply lookup_delete_eq].
Qed.

Lemma set_get_after_lifetime_witness :
  (get 3701 (py "k") (set 100 (py "k") (py "v") None init_default)).1 = None
  /\ cache (get 3701 (py "k") (set 100 (py "k") (py "v") None init_default)).2
       !! py "k" = None.
Proof. apply set_get_after_lifetime. simpl. lia. Defined.

(** X3: [set] overwrites the whole entry (the entry written before leaves
    no trace), and it changes no other key. *)
Theorem set_overwrites_whole_entry (c : SimpleCache) (key key' v1 v2 : pystr)
    (expiry1 expiry2 : option Z) (now1 now2 : Z) :
  set now2 key v2 expiry2 (set now1 key v1 expiry1 c)
  = set now2 key v2 expiry2 c
  /\ (key' <> key ->
      cache (set now1 key v1 expiry1 c) !! key' = cache c !! key').
Proof.
  split.
  - unfold set. simpl. now rewrite insert_insert_eq.
  - intros Hne. unfold set. simpl. now apply lookup_insert_ne.
Qed.

(** X4: after [delete] the key is absent at every clock reading, a
    [delete] of an absent key changes nothing, and no other key is
    touched. *)
Theorem delete_removes_only_the_key (c : SimpleCache) (key key' : pystr)
    (now : Z) :
  get now key (Cache.delete key c) = (None, Cache.delete key c)
  /\ (cache c !! key = None -> Cache.delete key c = c)
  /\ (key' <> key ->
      cache (Cache.delete key c) !! key' = cache c !! key').
Proof.
  unfold Cache.delete. destruct (cache c !! key) as [e|] eqn:E.
  - split; [|split].
    + apply get_unseen. simpl. apply lookup_delete_eq.
    + discriminate.
    + intros Hne. simpl. now apply lookup_delete_ne.
  - split; [|split]; auto. now apply get_unseen.
Qed.

(** X5: [clean_expired] removes exactly the entries whose [expires_at]
    lies before the clock reading, keeps every other entry as it is, and
    returns how many it removed. *)
Theorem clean_expired_removes_expired (c : SimpleCache) (now : Z)
    (key : pystr) :
  cache (clean_expired now c).2 !! key
  = match cache c !! key with
    | Some e => if expires_at e <? now then None else Some e
    | None => None
    end
  /\ size (cache c)
     = ((clean_expired now c).1 + size (cache (clean_expired now c).2))%nat
  /\ default_expiry (clean_expired now c).2 = default_expiry c.
Proof.
  split; [apply clean_expired_lookup|]. split; [|reflexivity].
  unfold clean_expired. simpl. rewrite length_fmap, <- (length_fmap fst).
  apply size_foldr_delete; [apply expired_keys_NoDup|].
  intros k (e & -> & _)%expired_keys_elem. eauto.
Qed.

(** X6: a sweep does not change what [get] returns at the same clock
    reading, and after it such a [get] finds nothing left to remove. *)
Theorem sweep_then_get (c : SimpleCache) (now : Z) (key : pystr) :
  (get now key (clean_expired now c).2).1 = (get now key c).1
  /\ (get now key (clean_expired now c).2).2 = (clean_expired now c).2.
Proof.
  split; unfold get; rewrite clean_expired_lookup;
    (destruct (cache c !! key) as [e|]; [|reflexivity]);
    (destruct (expires_at e <? now) eqn:E; [reflexivity|]); now rewrite E.
Qed.

(** X7: a second sweep at the same clock reading removes nothing. *)
Theorem sweep_twice_removes_nothing (c : SimpleCache) (now : Z) :
  (clean_expired now (clean_expired now c).2).1 = 0%nat
  /\ (clean_expired now (clean_expired now c).2).2 = (clean_expired now c).2.
Proof.
  set (c' := (clean_expired now c).2).
  assert (filter (λ kv : pystr * entry, expires_at (kv.2) < now)
                 (map_to_list (cache c')) = []) as Hnone.
  { destruct (filter _ _) as [|[k e] l] eqn:E; [reflexivity|]. exfalso.
    assert (k ∈ (filter (λ kv : pystr * entry, expires_at (kv.2) < now)
                        (map_to_list (cache c'))).*1) as Hin
      by (rewrite E; left).
    apply expired_keys_elem in Hin as (e' & Hlook & Hlt).
    unfold c' in Hlook. rewrite clean_expired_lookup in Hlook.
    destruct (cache c !! k) as [e0|]; [|discriminate].
    destruct (Z.ltb_spec (expires_at e0) now); [discriminate|].
    injection Hlook as <-. lia. }
  clearbody c'. unfold clean_expired. rewrite Hnone. simpl.
  split; [reflexivity | now destruct c'].
Qed.

(** X8: a hit is sound: when [get] returns a value, that value is stored
    under the key, its entry has not expired, and the cache is left as it
    is. *)
Theorem get_hit_is_stored_and_fresh (c c' : SimpleCache) (key v : pystr)
    (now : Z) :
  get now key c = (Some v, c') ->
  c' = c
  /\ exists e, cache c !! key = Some e /\ value e = v /\ now <= expires_at e.
Proof. apply get_some_inv. Qed.

Lemma get_hit_is_stored_and_fresh_witness :
  let c := set 100 (py "k") (py "v") None init_default in
  c = c
  /\ exists e, cache c !! py "k" = Some e /\ value e = py "v"
               /\ 200 <= expires_at e.
Proof.
  intros c. apply (get_hit_is_stored_and_fresh c c (py "k") (py "v") 200).
  apply (get_fresh 200 (py "k") c (Entry (py "v") 3700)).
  - apply set_then_lookup.
  - simpl. lia.
Defined.

(** ** utils/validation.py: the validators and the shape of sanitized text *)

Section SanitizerMore.

Implicit Types (s : pystr) (m : pystr -> option nat).

Lemma re_sub_from_length m (repl : pystr) k s :
  (length repl <= 1)%nat ->
  (length (re_sub_from m repl k s) <= length s)%nat.
Proof.
  intros Hrepl. revert k. induction s as [|c s IH]; intros k; [reflexivity|].
  cbn [re_sub_from]. destruct k as [|k].
  - destruct (m (c :: s)) as [[|n]|]; simpl.
    + specialize (IH 0%nat). lia.
    + rewrite length_app. specialize (IH n). lia.
    + specialize (IH 0%nat). lia.
  - specialize (IH k). simpl. lia.
Qed.

Lemma lstrip_length s : (length (lstrip s) <= length s)%nat.
Proof.
  induction s as [|c s IH]; [reflexivity|]. simpl.
  destruct (isspace c); simpl; lia.
Qed.

Lemma strip_length s : (length (strip s) <= length s)%nat.
Proof.
  unfold strip, rstrip. rewrite length_rev.
  etransitivity; [apply lstrip_length|]. rewrite length_rev.
  apply lstrip_length.
Qed.

Lemma collapsed_only_spaces s c :
  collapsed s = true -> c ∈ s -> isspace c = true -> c = 32%N.
Proof.
  induction s as [|d s IH]; intros Hcol Hin Hc; [inversion Hin|].
  apply elem_of_cons in Hin as [->|Hin].
  - cbn [collapsed] in Hcol. rewrite Hc in Hcol.
    apply andb_prop in Hcol as [[H%N.eqb_eq _]%andb_prop _]. exact H.
  - apply IH; auto. now apply collapsed_tail in Hcol.
Qed.

Lemma collapsed_no_run (pre post : pystr) c d :
  collapsed (pre ++ c :: d :: post) = true ->
  isspace c = true -> isspace d = false.
Proof.
  induction pre as [|a pre IH]; intros Hcol Hc.
  - cbn [app collapsed] in Hcol. rewrite Hc in Hcol.
    apply andb_prop in Hcol as [[_ H]%andb_prop _].
    cbn [head_solid] in H. now apply negb_true_iff in H.
  - apply IH; [|exact Hc]. now apply collapsed_tail in Hcol.
Qed.

Lemma strip_ends_solid s :
  head_solid (strip s) = true /\ head_solid (rev (strip s)) = true.
Proof.
  split.
  - unfold strip. destruct (rstrip_prefix (lstrip s)) as [w Hw].
    pose proof (lstrip_head s) as Hs. rewrite Hw in Hs.
    destruct (rstrip (lstrip s)); [reflexivity | exact Hs].
  - unfold strip, rstrip. rewrite rev_involutive. apply lstrip_head.
Qed.

Lemma sanitize_unfold (x : pystr) :
  sanitize_prompt_input x = []
  \/ exists u, (length u <= length x)%nat
               /\ sanitize_prompt_input x = strip (re_sub m_ws (py " ") u).
Proof.
  unfold sanitize_prompt_input. destruct (negb (truthy x)); [now left|].
  right. eexists. split; [|reflexivity].
  unfold re_sub.
  etransitivity; [apply re_sub_from_length; simpl; lia|].
  etransitivity; [apply re_sub_from_length; simpl; lia|].
  apply re_sub_from_length. simpl. lia.
Qed.

End SanitizerMore.

(** X9: what the sanitizer returns is normalized: the only white-space
    character in it is the space U+0020 (no tab, no line break), no two
    white-space characters are adjacent, and it neither starts nor ends
    with white space. *)
Theorem sanitize_output_normalized (x : pystr) :
  let out := sanitize_prompt_input x in
  (forall c, c ∈ out -> isspace c = true -> c = 32%N)
  /\ (forall pre c d post,
        out = pre ++ c :: d :: post -> isspace c = true -> isspace d = false)
  /\ head_solid out = true
  /\ head_solid (rev out) = true.
Proof.
  intros out. subst out.
  assert (collapsed (sanitize_prompt_input x) = true
          /\ head_solid (sanitize_prompt_input x) = true
          /\ head_solid (rev (sanitize_prompt_input x)) = true)
    as (Hcol & Hhead & Hlast).
  { destruct (sanitize_unfold x) as [->|(u & _ & ->)]; [auto|].
    destruct (strip_ends_solid (re_sub m_ws (py " ") u)) as [H1 H2].
    split; [|auto]. apply collapsed_strip.
    destruct (re_sub_ws_collapsed u) as (_ & Hcol & _). exact Hcol. }
  repeat split; auto.
  - intros c. now apply collapsed_only_spaces.
  - intros pre c d post E. rewrite E in Hcol.
    now apply (collapsed_no_run pre post).
Qed.

(** X10: sanitizing never makes a text longer, so a field that passed its
    length check still fits after it is sanitized. *)
Theorem sanitize_never_longer (x : pystr) :
  (length (sanitize_prompt_input x) <= length x)%nat.
Proof.
  destruct (sanitize_unfold x) as [->|(u & Hu & ->)]; [simpl; lia|].
  etransitivity; [apply strip_length|].
  etransitivity; [apply re_sub_from_length; simpl; lia | exact Hu].
Qed.

(** X11: [validate_form_data] accepts a form exactly when no field breaks
    its rule (a product name that is not blank and at most 100 characters
    long; details, keywords and extra instructions of at most 1000, 200
    and 500 characters), and its error dict has one entry for each field
    that does, in the order of the form. *)
Theorem form_accepted_iff_rules_hold (data : gmap pystr pystr) :
  (validate_form_data data).1 = bool_decide (violated_fields data = [])
  /\ (validate_form_data data).2.*1 = violated_fields data.
Proof. split; [apply validate_valid_iff | apply validate_reports_all]. Qed.

(** ** utils/error_handler.py *)

(** X12: whatever the exception, [handle_openai_error] answers with one
    of nine fixed pairs of a message and a kind tag, so the message never
    repeats the text of the exception; the details hold that text under
    original_error, then the type name, then the kind tag. *)
Theorem error_always_classified (unicode_lower : N -> pystr) (e : exn) :
  exists kind,
    In ((handle_openai_error unicode_lower e).1, kind) known_errors
    /\ (handle_openai_error unicode_lower e).2
       = [(py "original_error", VStr (message e));
          (py "error_type_name", VStr (type_name e));
          (py "error_type", VStr kind)].
Proof.
  unfold handle_openai_error, classify.
  repeat match goal with
         | |- context [if ?b then _ else _] => destruct b
         end;
    eexists; (split; [|reflexivity]); unfold known_errors;
    cbn [In]; tauto.
Qed.

(** ** utils/ai_service.py: the streaming loop *)

Section StreamFacts.

Implicit Types (response : stream) (out : pystr) (n : Z).

Lemma stream_loop_accumulates response out n :
  (stream_loop response out n).2.1.1 = out ++ concat (deltas response)
  /\ (stream_loop response out n).2.1.2
     = n + Z.of_nat (length (stream_loop response out n).1)
  /\ length (stream_loop response out n).1
     = length (List.filter truthy (deltas response)).
Proof.
  revert out n. induction response as [|delta rest IH|e]; intros out n.
  - simpl. rewrite app_nil_r. repeat split; lia.
  - cbn [stream_loop deltas concat List.filter].
    destruct (truthy delta) eqn:Hd.
    + destruct (IH (out ++ delta) (n + 1)) as (H1 & H2 & H3).
      destruct (stream_loop rest (out ++ delta) (n + 1))
        as [events [[text k] failure]].
      simpl in *. rewrite H1, H2, H3, <- app_assoc. repeat split; lia.
    + destruct delta; [|discriminate]. simpl. apply IH.
  - simpl. rewrite app_nil_r. repeat split; lia.
Qed.

Lemma stream_loop_partials response out n ev :
  ev ∈ (stream_loop response out n).1 ->
  exists p, dict_get (py "partial") ev = Some (VStr p)
            /\ out `prefix_of` p /\ p <> []
            /\ p `prefix_of` (stream_loop response out n).2.1.1.
Proof.
  revert out n. induction response as [|delta rest IH|e]; intros out n.
  - simpl. intros H. inversion H.
  - cbn [stream_loop]. destruct (truthy delta) eqn:Hd; [|apply IH].
    pose proof (IH (out ++ delta) (n + 1)) as IH'.
    pose proof (stream_loop_accumulates rest (out ++ delta) (n + 1))
      as (Htext & _ & _).
    destruct (stream_loop rest (out ++ delta) (n + 1))
      as [events [[text k] failure]].
    simpl in *. intros [->|Hin]%elem_of_cons.
    + exists (out ++ delta). split; [reflexivity|]. split; [|split].
      * now apply prefix_app_r.
      * destruct delta; [discriminate|]. now destruct out.
      * rewrite Htext. now apply prefix_app_r.
    + destruct (IH' Hin) as (p & Hp & Hpre & Hne & Hfin).
      exists p. repeat split; auto.
      etransitivity; [|exact Hpre]. now apply prefix_app_r.
  - simpl. intros H. inversion H.
Qed.

End StreamFacts.

(** X13: the text a generation ends with is the concatenation of the
    deltas the provider sent before the stream ended or failed; a delta
    without content yields no event and counts no token, every other
    delta yields one event and counts one token. *)
Theorem streamed_text_is_concatenation (response : stream) :
  streamed_text response = concat (deltas response)
  /\ length (stream_loop response [] 0).1
     = length (List.filter truthy (deltas response))
  /\ streamed_tokens response
     = Z.of_nat (length (List.filter truthy (deltas response))).
Proof.
  unfold streamed_text, streamed_tokens.
  destruct (stream_loop_accumulates response [] 0) as (H1 & H2 & H3).
  rewrite H1, H2, H3. auto.
Qed.

(** X14: every streamed progress event carries a non-empty prefix of the
    text the generation ends with: the partial text only grows. *)
Theorem streamed_partials_are_prefixes (response : stream) (i : nat)
    (ev : pydict) :
  (stream_loop response [] 0).1 !! i = Some ev ->
  exists p, dict_get (py "partial") ev = Some (VStr p)
            /\ p <> []
            /\ p `prefix_of` streamed_text response.
Proof.
  intros Hi. apply list_elem_of_lookup_2 in Hi.
  destruct (stream_loop_partials response [] 0 ev Hi)
    as (p & Hp & _ & Hne & Hfin).
  now exists p.
Qed.

Lemma streamed_partials_are_prefixes_witness :
  exists p,
    dict_get (py "partial")
      [(py "data", VStr (py "Generating description..."));
       (py "partial", VStr (py "Hello"));
       (py "percent", VInt (percent_of 2))]
    = Some (VStr p)
    /\ p <> []
    /\ p `prefix_of` streamed_text
         (StreamChunk (py "Hel")
            (StreamChunk [] (StreamChunk (py "lo")
               (StreamChunk (py "!") StreamEnd)))).
Proof.
  apply (streamed_partials_are_prefixes
           (StreamChunk (py "Hel")
              (StreamChunk [] (StreamChunk (py "lo")
                 (StreamChunk (py "!") StreamEnd)))) 1).
  reflexivity.
Defined.

(** ** utils/ai_service.py: what a generation leaves behind *)

Section GenerationFacts.

Variable unicode_lower : N -> pystr.

Implicit Types (w : world) (product_info : gmap pystr pystr).

(** The generating path, with its destructuring written out. *)
Lemma generating_path_result product_info model max_tokens temperature
    use_cache t_get t_set response w :
  takes_cached_path product_info model use_cache t_get w = false ->
  generate_product_description unicode_lower product_info model max_tokens
    temperature use_cache t_get t_set response w
  = let key := description_key (read_fields product_info) model in
    let c1 := if use_cache then (get t_get key (the_cache w)).2
              else the_cache w in
    let stats1 :=
      Usage (total_requests (stats w) + 1) (total_tokens (stats w))
            (total_images (stats w)) (last_reset (stats w)) in
    let calls :=
      chat_calls w
      ++ [ChatCall model
            [(py "system", system_message);
             (py "user", final_prompt (read_fields product_info))]
            max_tokens temperature true] in
    match stream_failure response with
    | None =>
        (generating_event :: (stream_loop response [] 0).1
           ++ [completion_event (streamed_text response)],
         World (if use_cache
                then set t_set key (streamed_text response) None c1
                else c1)
               (Usage (total_requests (stats w) + 1)
                      (total_tokens (stats w) + streamed_tokens response)
                      (total_images (stats w)) (last_reset (stats w)))
               calls (image_calls w))
    | Some e =>
        (generating_event :: (stream_loop response [] 0).1
           ++ [[(py "data",
                 VStr (py "Error: "
                       ++ (handle_openai_error unicode_lower e).1));
                (py "partial", VStr (streamed_text response));
                (py "percent", VInt 0);
                (py "error", VBool true);
                (py "error_details",
                 VDict (handle_openai_error unicode_lower e).2)]],
         World c1 stats1 calls (image_calls w))
    end.
Proof.
  unfold takes_cached_path, generate_product_description, stream_failure,
    streamed_text, streamed_tokens.
  intros H. cbv zeta.
  destruct use_cache; simpl in H |- *.
  - destruct (get t_get _ (the_cache w)) as [cached c1]. simpl in H |- *.
    rewrite H.
    destruct (stream_loop response [] 0) as [events [[text n] [e|]]];
      simpl; [|reflexivity].
    destruct (handle_openai_error unicode_lower e) as [msg details]. simpl.
    now destruct text.
  - destruct (stream_loop response [] 0) as [events [[text n] [e|]]];
      simpl; [|reflexivity].
    destruct (handle_openai_error unicode_lower e) as [msg details]. simpl.
    now destruct text.
Qed.

Lemma generation_keeps_other_keys product_info model max_tokens temperature
    use_cache t_get t_set response w key :
  key <> description_key (read_fields product_info) model ->
  cache (the_cache
           (generate_product_description unicode_lower product_info model
              max_tokens temperature use_cache t_get t_set response w).2)
    !! key
  = cache (the_cache w) !! key.
Proof.
  intros Hne.
  destruct (takes_cached_path product_info model use_cache t_get w) eqn:Hp.
  - unfold takes_cached_path, generate_product_description in *.
    destruct use_cache; [|discriminate]. simpl in *.
    destruct (get t_get _ (the_cache w)) as [[v|] c1] eqn:E;
      simpl in *; [|discriminate].
    rewrite Hp. simpl.
    apply get_some_inv in E as [-> _]. reflexivity.
  - rewrite (generating_path_result _ _ _ _ _ _ _ _ _ Hp). cbv zeta.
    destruct (stream_failure response), use_cache; simpl;
      rewrite ?lookup_insert_ne by congruence;
      rewrite ?get_keeps_other_keys by assumption; reflexivity.
Qed.

Lemma generation_keeps_default_expiry product_info model max_tokens
    temperature use_cache t_get t_set response w :
  default_expiry
    (the_cache
       (generate_product_description unicode_lower product_info model
          max_tokens temperature use_cache t_get t_set response w).2)
  = default_expiry (the_cache w).
Proof.
  destruct (takes_cached_path product_info model use_cache t_get w) eqn:Hp.
  - unfold takes_cached_path, generate_product_description in *.
    destruct use_cache; [|discriminate]. simpl in *.
    destruct (get t_get _ (the_cache w)) as [[v|] c1] eqn:E;
      simpl in *; [|discriminate].
    rewrite Hp. simpl.
    apply get_some_inv in E as [-> _]. reflexivity.
  - rewrite (generating_path_result _ _ _ _ _ _ _ _ _ Hp). cbv zeta.
    destruct (stream_failure response), use_cache; simpl;
      rewrite ?get_keeps_default_expiry; reflexivity.
Qed.

End GenerationFacts.

(** X15: a generation that reaches the provider and whose stream ends
    without failure yields the announcing event, the streamed events and
    the completion event with the whole text; it counts one request and
    one token per delta with content, makes exactly one chat call (the
    system message and the assembled prompt, streaming) and no image
    call, and, with caching on, stores the text under the fingerprint
    for the default lifetime. *)
Theorem generation_success_effects (unicode_lower : N -> pystr)
    (product_info : gmap pystr pystr) (model : pystr) (max_tokens : Z)
    (temperature : Q) (use_cache : bool) (t_get t_set : Z)
    (response : stream) (w : world) :
  takes_cached_path product_info model use_cache t_get w = false ->
  stream_failure response = None ->
  let r := generate_product_description unicode_lower product_info model
             max_tokens temperature use_cache t_get t_set response w in
  r.1 = generating_event :: (stream_loop response [] 0).1
        ++ [completion_event (concat (deltas response))]
  /\ stats r.2
     = Usage (total_requests (stats w) + 1)
             (total_tokens (stats w)
              + Z.of_nat (length (List.filter truthy (deltas response))))
             (total_images (stats w)) (last_reset (stats w))
  /\ chat_calls r.2
     = chat_calls w
       ++ [ChatCall model
             [(py "system", system_message);
              (py "user", final_prompt (read_fields product_info))]
             max_tokens temperature true]
  /\ image_calls r.2 = image_calls w
  /\ (use_cache = true ->
      cache (the_cache r.2) !! description_key (read_fields product_info) model
      = Some (Entry (concat (deltas response))
                    (t_set + default_expiry (the_cache w)))).
Proof.
  intros Hpath Hok r. subst r.
  rewrite (generating_path_result _ _ _ _ _ _ _ _ _ _ Hpath). cbv zeta.
  rewrite Hok.
  destruct (stream_loop_accumulates response [] 0) as (H1 & H2 & H3).
  unfold streamed_text, streamed_tokens. rewrite H1, H2, H3. simpl.
  repeat split. intros ->.
  rewrite set_then_lookup. now rewrite get_keeps_default_expiry.
Qed.

Lemma generation_success_effects_witness :
  let info : gmap pystr pystr := {[ py "product_name" := py "Lamp" ]} in
  let response := StreamChunk (py "Hel") (StreamChunk [] (StreamChunk (py "lo") StreamEnd)) in
  let r := generate_product_description plain_table info DEFAULT_MODEL 600
             (Qmake 7 10) true 0 1 response fresh_world in
  r.1 = generating_event :: (stream_loop response [] 0).1
        ++ [completion_event (concat (deltas response))]
  /\ stats r.2
     = Usage (total_requests (stats fresh_world) + 1)
             (total_tokens (stats fresh_world)
              + Z.of_nat (length (List.filter truthy (deltas response))))
             (total_images (stats fresh_world)) (last_reset (stats fresh_world))
  /\ chat_calls r.2
     = chat_calls fresh_world
       ++ [ChatCall DEFAULT_MODEL
             [(py "system", system_message);
              (py "user", final_prompt (read_fields info))]
             600 (Qmake 7 10) true]
  /\ image_calls r.2 = image_calls fresh_world
  /\ (true = true ->
      cache (the_cache r.2) !! description_key (read_fields info) DEFAULT_MODEL
      = Some (Entry (concat (deltas response))
                    (1 + default_expiry (the_cache fresh_world)))).
Proof.
  intros info response.
  apply (generation_success_effects plain_table info DEFAULT_MODEL 600
           (Qmake 7 10) true 0 1 response fresh_world);
    vm_compute; reflexivity.
Defined.

(** X16: a generation whose provider call or stream fails is still
    counted as a request and as a chat call, but its tokens are not
    counted and nothing is stored: every cache entry it leaves was there
    before. *)
Theorem generation_failure_effects (unicode_lower : N -> pystr)
    (product_info : gmap pystr pystr) (model : pystr) (max_tokens : Z)
    (temperature : Q) (use_cache : bool) (t_get t_set : Z)
    (response : stream) (w : world) (e : exn) :
  takes_cached_path product_info model use_cache t_get w = false ->
  stream_failure response = Some e ->
  let r := generate_product_description unicode_lower product_info model
             max_tokens temperature use_cache t_get t_set response w in
  stats r.2
  = Usage (total_requests (stats w) + 1) (total_tokens (stats w))
          (total_images (stats w)) (last_reset (stats w))
  /\ length (chat_calls r.2) = S (length (chat_calls w))
  /\ image_calls r.2 = image_calls w
  /\ (forall key e', cache (the_cache r.2) !! key = Some e' ->
                     cache (the_cache w) !! key = Some e').
Proof.
  intros Hpath Hfail r. subst r.
  rewrite (generating_path_result _ _ _ _ _ _ _ _ _ _ Hpath). cbv zeta.
  rewrite Hfail. simpl. repeat split.
  - rewrite length_app. simpl. lia.
  - intros key e'. destruct use_cache; [apply get_never_adds | auto].
Qed.

Lemma generation_failure_effects_witness :
  let info : gmap pystr pystr := {[ py "product_name" := py "Lamp" ]} in
  let response :=
    StreamChunk (py "Hel") (StreamRaise (Exn (py "APIError") (py "timed out"))) in
  let r := generate_product_description plain_table info DEFAULT_MODEL 600
             (Qmake 7 10) true 0 1 response fresh_world in
  stats r.2
  = Usage (total_requests (stats fresh_world) + 1)
          (total_tokens (stats fresh_world))
          (total_images (stats fresh_world)) (last_reset (stats fresh_world))
  /\ length (chat_calls r.2) = S (length (chat_calls fresh_world))
  /\ image_calls r.2 = image_calls fresh_world
  /\ (forall key e', cache (the_cache r.2) !! key = Some e' ->
                     cache (the_cache fresh_world) !! key = Some e').
Proof.
  intros info response.
  apply (generation_failure_effects plain_table info DEFAULT_MODEL 600
           (Qmake 7 10) true 0 1 response fresh_world
           (Exn (py "APIError") (py "timed out")));
    vm_compute; reflexivity.
Defined.

(** X17: with caching off the cache is neither read nor written: it is
    left exactly as it was, whatever the provider answers. *)
Theorem caching_off_leaves_cache (unicode_lower : N -> pystr)
    (product_info : gmap pystr pystr) (model : pystr) (max_tokens : Z)
    (temperature : Q) (t_get t_set : Z) (response : stream) (w : world) :
  the_cache (generate_product_description unicode_lower product_info model
               max_tokens temperature false t_get t_set response w).2
  = the_cache w.
Proof.
  rewrite generating_path_result by reflexivity. cbv zeta.
  now destruct (stream_failure response).
Qed.

(** ** The two namespaces of the cache *)

Section NamespaceFacts.

Variable unicode_lower : N -> pystr.

Lemma description_key_not_image_key (f : fields)
    (model name image_model size quality : pystr) :
  description_key f model <> image_key name image_model size quality.
Proof.
  unfold description_key, image_key. rewrite !create_key_chunks.
  generalize (concat ((58%N ::.) <$> (render_item <$> sorted_items
    [(py "product_name", SStr (product_name f));
     (py "product_details", SStr (product_details f));
     (py "language", SStr (language f)); (py "tone", SStr (tone f));
     (py "keywords", SStr (keywords f));
     (py "audience", SStr (audience f));
     (py "platform", SStr (platform f)); (py "usps", SStr (usps f));
     (py "cta_style", SStr (cta_style f));
     (py "viral_flag", SBool (viral_flag f));
     (py "extra_instructions", SStr (extra_instructions f));
     (py "model", SStr model)]))).
  generalize (concat ((58%N ::.) <$> (render_item <$> sorted_items
    [(py "product_name", SStr name); (py "model", SStr image_model);
     (py "size", SStr size); (py "quality", SStr quality)]))).
  intros X Y E. apply (f_equal (take 9)) in E. vm_compute in E.
  discriminate E.
Qed.

(** What the image thread does to the cache, key by key. *)
Lemma image_keeps_other_keys name model size quality t_get t_set result
    (w : world) key :
  key <> image_key (sanitize_prompt_input name) model size quality ->
  cache (the_cache (_generate_image unicode_lower name model size quality
                      t_get t_set result w).2) !! key
  = cache (the_cache w) !! key.
Proof.
  intros Hne. unfold _generate_image.
  pose proof (get_keeps_other_keys t_get _ key (the_cache w) Hne) as Hget.
  destruct (get t_get _ (the_cache w)) as [cached c1]. simpl in Hget.
  destruct (match cached with Some v => truthy v | None => false end);
    [exact Hget|].
  destruct result as [url|x];
    [|destruct (handle_openai_error unicode_lower x)]; simpl;
    rewrite ?lookup_insert_ne by congruence; exact Hget.
Qed.

Lemma image_keeps_default_expiry name model size quality t_get t_set result
    (w : world) :
  default_expiry (the_cache (_generate_image unicode_lower name model size
                               quality t_get t_set result w).2)
  = default_expiry (the_cache w).
Proof.
  unfold _generate_image.
  pose proof (get_keeps_default_expiry t_get
                (image_key (sanitize_prompt_input name) model size quality)
                (the_cache w)) as Hget.
  destruct (get t_get _ (the_cache w)) as [cached c1]. simpl in Hget.
  destruct (match cached with Some v => truthy v | None => false end);
    [exact Hget|].
  destruct result as [url|x];
    [|destruct (handle_openai_error unicode_lower x)]; exact Hget.
Qed.

End NamespaceFacts.

(** X18: the fingerprint of a description and the fingerprint of an image
    are never the same string, whatever the fields hold: the two
    namespaces of the cache are disjoint. *)
Theorem namespaces_are_disjoint (f : fields)
    (model name image_model size quality : pystr) :
  bool_decide (description_key f model
               = image_key name image_model size quality) = false.
Proof.
  apply bool_decide_eq_false, description_key_not_image_key.
Qed.

(** X19: the image thread never changes the cache entry of a description,
    and a text generation never changes the cache entry of an image. *)
Theorem orchestrators_keep_each_others_entries (unicode_lower : N -> pystr)
    (product_info : gmap pystr pystr) (model : pystr) (max_tokens : Z)
    (temperature : Q) (use_cache : bool) (t_get t_set : Z)
    (response : stream) (f : fields)
    (text_model name image_model size quality : pystr)
    (result : image_result) (w : world) :
  cache (the_cache (_generate_image unicode_lower name image_model size
                      quality t_get t_set result w).2)
    !! description_key f text_model
  = cache (the_cache w) !! description_key f text_model
  /\ cache (the_cache
              (generate_product_description unicode_lower product_info model
                 max_tokens temperature use_cache t_get t_set response w).2)
       !! image_key name image_model size quality
     = cache (the_cache w) !! image_key name image_model size quality.
Proof.
  split.
  - apply image_keeps_other_keys, description_key_not_image_key.
  - apply generation_keeps_other_keys.
    intros E. symmetry in E. revert E. apply description_key_not_image_key.
Qed.

(** ** utils/ai_service.py: the image thread *)

Section ImageFacts.

Variable unicode_lower : N -> pystr.

(** The path of [_generate_image] that reaches the provider, with its
    destructuring written out. *)
Lemma image_generating_result (name model size quality : pystr)
    (t_get t_set : Z) (result : image_result) (w : world) :
  takes_cached_image name model size quality t_get w = false ->
  _generate_image unicode_lower name model size quality t_get t_set result w
  = let key := image_key (sanitize_prompt_input name) model size quality in
    let c1 := (get t_get key (the_cache w)).2 in
    let stats1 :=
      Usage (total_requests (stats w) + 1) (total_tokens (stats w))
            (total_images (stats w) + 1) (last_reset (stats w)) in
    let calls :=
      image_calls w
      ++ [ImageCall (image_prompt_for (sanitize_prompt_input name)) 1 size
                    model quality] in
    match result with
    | ImageUrl url =>
        (image_generated_updates url,
         World (set t_set key url None c1) stats1 (chat_calls w) calls)
    | ImageRaise e =>
        (take 3 (image_generated_updates [])
           ++ [[(py "status",
                 VStr (py "Image generation failed: "
                       ++ (handle_openai_error unicode_lower e).1));
                (py "percent", VInt 100);
                (py "error", VBool true);
                (py "error_details",
                 VDict (handle_openai_error unicode_lower e).2)]],
         World c1 stats1 (chat_calls w) calls)
    end.
Proof.
  unfold takes_cached_image, _generate_image. intros H. cbv zeta.
  destruct (get t_get _ (the_cache w)) as [cached c1]. simpl in H |- *.
  rewrite H. destruct result as [url|e]; [reflexivity|].
  now destruct (handle_openai_error unicode_lower e).
Qed.

Lemma image_from_cache (name model size quality : pystr) (t_get t_set : Z)
    (result : image_result) (w : world) (e : entry) :
  cache (the_cache w)
    !! image_key (sanitize_prompt_input name) model size quality = Some e ->
  t_get <= expires_at e ->
  value e <> [] ->
  _generate_image unicode_lower name model size quality t_get t_set result w
  = (image_cached_updates (value e), w).
Proof.
  intros Hkey Hle Hval. unfold _generate_image.
  rewrite (get_fresh _ _ _ _ Hkey Hle). simpl.
  rewrite (truthy_nonempty _ Hval). simpl. now rewrite world_eta.
Qed.

End ImageFacts.

(** X20: an image generation that reaches the provider and gets a URL
    back makes four callbacks (percent 10, 25, 50, then percent 100 with
    the URL), counts one image and one request, makes exactly one image
    call (one image, with the prompt that forbids text, logos and
    branding) and stores the URL under the fingerprint for the default
    lifetime. *)
Theorem image_success_effects (unicode_lower : N -> pystr)
    (name model size quality url : pystr) (t_get t_set : Z) (w : world) :
  takes_cached_image name model size quality t_get w = false ->
  let r := _generate_image unicode_lower name model size quality t_get t_set
             (ImageUrl url) w in
  r.1 = image_generated_updates url
  /\ stats r.2
     = Usage (total_requests (stats w) + 1) (total_tokens (stats w))
             (total_images (stats w) + 1) (last_reset (stats w))
  /\ image_calls r.2
     = image_calls w
       ++ [ImageCall (image_prompt_for (sanitize_prompt_input name)) 1 size
                     model quality]
  /\ chat_calls r.2 = chat_calls w
  /\ cache (the_cache r.2)
       !! image_key (sanitize_prompt_input name) model size quality
     = Some (Entry url (t_set + default_expiry (the_cache w))).
Proof.
  intros Hpath r. subst r.
  rewrite (image_generating_result _ _ _ _ _ _ _ _ _ Hpath). cbv zeta.
  simpl. repeat split.
  rewrite lookup_insert_eq. now rewrite get_keeps_default_expiry.
Qed.

Lemma image_success_effects_witness :
  let r := _generate_image plain_table (py "Lamp") DEFAULT_IMAGE_MODEL
             (py "1024x1024") (py "standard") 0 1
             (ImageUrl (py "https://img/1")) fresh_world in
  r.1 = image_generated_updates (py "https://img/1")
  /\ stats r.2
     = Usage (total_requests (stats fresh_world) + 1)
             (total_tokens (stats fresh_world))
             (total_images (stats fresh_world) + 1)
             (last_reset (stats fresh_world))
  /\ image_calls r.2
     = image_calls fresh_world
       ++ [ImageCall (image_prompt_for (sanitize_prompt_input (py "Lamp"))) 1
                     (py "1024x1024") DEFAULT_IMAGE_MODEL (py "standard")]
  /\ chat_calls r.2 = chat_calls fresh_world
  /\ cache (the_cache r.2)
       !! image_key (sanitize_prompt_input (py "Lamp")) DEFAULT_IMAGE_MODEL
            (py "1024x1024") (py "standard")
     = Some (Entry (py "https://img/1")
                   (1 + default_expiry (the_cache fresh_world))).
Proof.
  apply (image_success_effects plain_table (py "Lamp") DEFAULT_IMAGE_MODEL
           (py "1024x1024") (py "standard") (py "https://img/1") 0 1
           fresh_world).
  vm_compute. reflexivity.
Defined.

(** X21: an image generation whose provider call fails ends with one
    terminal callback at percent 100 that carries the error flag, the
    message and the classified details; the image and the request are
    counted all the same, and nothing is stored. *)
Theorem image_failure_effects (unicode_lower : N -> pystr)
    (name model size quality : pystr) (t_get t_set : Z) (e : exn)
    (w : world) :
  takes_cached_image name model size quality t_get w = false ->
  let r := _generate_image unicode_lower name model size quality t_get t_set
             (ImageRaise e) w in
  length r.1 = 4%nat
  /\ last r.1
     = Some [(py "status",
              VStr (py "Image generation failed: "
                    ++ (handle_openai_error unicode_lower e).1));
             (py "percent", VInt 100);
             (py "error", VBool true);
             (py "error_details",
              VDict (handle_openai_error unicode_lower e).2)]
  /\ stats r.2
     = Usage (total_requests (stats w) + 1) (total_tokens (stats w))
             (total_images (stats w) + 1) (last_reset (stats w))
  /\ length (image_calls r.2) = S (length (image_calls w))
  /\ (forall key e', cache (the_cache r.2) !! key = Some e' ->
                     cache (the_cache w) !! key = Some e').
Proof.
  intros Hpath r. subst r.
  rewrite (image_generating_result _ _ _ _ _ _ _ _ _ Hpath). cbv zeta.
  simpl. repeat split.
  - rewrite length_app. simpl. lia.
  - intros key e'. apply get_never_adds.
Qed.

Lemma image_failure_effects_witness :
  let e := Exn (py "APIError") (py "billing hard limit reached") in
  let r := _generate_image plain_table (py "Lamp") DEFAULT_IMAGE_MODEL
             (py "1024x1024") (py "standard") 0 1 (ImageRaise e)
             fresh_world in
  length r.1 = 4%nat
  /\ last r.1
     = Some [(py "status",
              VStr (py "Image generation failed: "
                    ++ (handle_openai_error plain_table e).1));
             (py "percent", VInt 100);
             (py "error", VBool true);
             (py "error_details",
              VDict (handle_openai_error plain_table e).2)]
  /\ stats r.2
     = Usage (total_requests (stats fresh_world) + 1)
             (total_tokens (stats fresh_world))
             (total_images (stats fresh_world) + 1)
             (last_reset (stats fresh_world))
  /\ length (image_calls r.2) = S (length (image_calls fresh_world))
  /\ (forall key e', cache (the_cache r.2) !! key = Some e' ->
                     cache (the_cache fresh_world) !! key = Some e').
Proof.
  intros e.
  apply (image_failure_effects plain_table (py "Lamp") DEFAULT_IMAGE_MODEL
           (py "1024x1024") (py "standard") 0 1 e fresh_world).
  vm_compute. reflexivity.
Defined.

(** X22: two image generations for the same product name, model, size
    and quality: when the first one gets a non-empty URL from the
    provider and the second one starts before the entry expires, the
    second one is served from the cache (three callbacks, the last one
    with the URL of the first) and leaves the state as the first one left
    it: the provider is not called again. *)
Theorem second_image_served_from_cache (unicode_lower : N -> pystr)
    (name model size quality url : pystr) (t_get1 t_set1 t_get2 t_set2 : Z)
    (result2 : image_result) (w : world) :
  takes_cached_image name model size quality t_get1 w = false ->
  url <> [] ->
  t_get2 <= t_set1 + default_expiry (the_cache w) ->
  let run := _generate_image unicode_lower name model size quality in
  let first := run t_get1 t_set1 (ImageUrl url) w in
  let second := run t_get2 t_set2 result2 first.2 in
  second.1 = image_cached_updates url
  /\ second.2 = first.2
  /\ length (image_calls second.2) = S (length (image_calls w)).
Proof.
  intros Hpath Hurl Hle run first second. subst run first second.
  rewrite (image_generating_result unicode_lower _ _ _ _ t_get1 _ _ _ Hpath).
  cbv zeta. cbn [snd].
  rewrite (image_from_cache unicode_lower name model size quality t_get2
             t_set2 result2 _
             (Entry url (t_set1 + default_expiry (the_cache w)))).
  - simpl. repeat split. rewrite length_app. simpl. lia.
  - simpl. rewrite lookup_insert_eq. now rewrite get_keeps_default_expiry.
  - exact Hle.
  - exact Hurl.
Qed.

Lemma second_image_served_from_cache_witness :
  let run := _generate_image plain_table (py "Lamp") DEFAULT_IMAGE_MODEL
               (py "1024x1024") (py "standard") in
  let first := run 0 1 (ImageUrl (py "https://img/1")) fresh_world in
  let second := run 3000 3001 (ImageUrl (py "https://img/2")) first.2 in
  second.1 = image_cached_updates (py "https://img/1")
  /\ second.2 = first.2
  /\ length (image_calls second.2) = S (length (image_calls fresh_world)).
Proof.
  apply (second_image_served_from_cache plain_table (py "Lamp")
           DEFAULT_IMAGE_MODEL (py "1024x1024") (py "standard")
           (py "https://img/1") 0 1 3000 3001
           (ImageUrl (py "https://img/2")) fresh_world).
  - vm_compute. reflexivity.
  - discriminate.
  - simpl. lia.
Defined.

(** ** app.py: the two handlers *)

Section GatewayFacts.

Variable unicode_lower : N -> pystr.

Lemma forward_without_image (events : list pydict) :
  flat_map (forward false) events = pair (py "progress") <$> events.
Proof.
  induction events as [|ev events IH]; [reflexivity|].
  cbn [flat_map]. rewrite IH. unfold forward.
  now rewrite andb_false_r.
Qed.

(** A valid job with an image, with the destructuring of the handler
    written out. *)
Lemma job_with_image_result (cfg : config) (api_key : option pystr)
    (data : job) (sched : schedule) (t : clock) (response : stream)
    (image_answer : image_result) (w : world) :
  api_key_configured api_key = true ->
  violated_fields (text_fields data) = [] ->
  generate_image data = true ->
  ENABLE_IMAGE_GENERATION cfg = true ->
  handle_generation unicode_lower cfg api_key data sched t response
    image_answer w
  = let name :=
      strip (sanitize_prompt_input
               (field_value (text_fields data) (py "product_name"))) in
    let image :=
      _generate_image unicode_lower name DEFAULT_IMAGE_MODEL (py "1024x1024")
        (py "standard") (image_get t) (image_set t) image_answer in
    let text :=
      generate_product_description unicode_lower (text_fields data)
        DEFAULT_MODEL 600 (Qmake 7 10) (ENABLE_CACHING cfg) (text_get t)
        (text_set t) response in
    let started : emitted :=
      (py "progress",
       [(py "data", VStr (py "Starting image generation in parallel..."));
        (py "partial", VStr []);
        (py "percent", VInt 0);
        (py "image_generation_started", VBool true)]) in
    match sched with
    | ImageThreadFirst =>
        (started :: (pair (py "image_progress") <$> (image w).1)
           ++ flat_map (forward true) (text (image w).2).1,
         (text (image w).2).2)
    | ImageThreadLast =>
        (started :: flat_map (forward true) (text w).1
           ++ (pair (py "image_progress") <$> (image (text w).2).1),
         (image (text w).2).2)
    end.
Proof.
  intros Hkey Hvalid Himg Hen. unfold handle_generation, field_value.
  rewrite Hkey, Himg, Hen.
  pose proof (validate_valid_iff (text_fields data)) as Hv.
  rewrite Hvalid in Hv.
  destruct (validate_form_data (text_fields data)) as [is_valid errors].
  simpl in Hv. subst is_valid. cbn [negb andb]. cbv zeta.
  destruct sched.
  - destruct (_generate_image _ _ _ _ _ _ _ _ w) as [updates w1].
    cbn [fst snd].
    now destruct (generate_product_description _ _ _ _ _ _ _ _ _ w1).
  - destruct (generate_product_description _ _ _ _ _ _ _ _ _ w)
      as [events w1].
    cbn [fst snd]. now destruct (_generate_image _ _ _ _ _ _ _ _ w1).
Qed.

End GatewayFacts.

(** X23: with the provider credential configured, a form that breaks any
    rule (not only an empty product name) is rejected with a single
    progress event that carries the messages joined by "; " and the
    field-error dict, one entry for each field that breaks its rule; the
    state is left as it was, so no provider call is made and nothing is
    counted. *)
Theorem invalid_form_rejected (unicode_lower : N -> pystr) (cfg : config)
    (api_key : option pystr) (data : job) (sched : schedule) (t : clock)
    (response : stream) (image_answer : image_result) (w : world) :
  api_key_configured api_key = true ->
  violated_fields (text_fields data) <> [] ->
  let errors := (validate_form_data (text_fields data)).2 in
  handle_generation unicode_lower cfg api_key data sched t response
    image_answer w
  = ([(py "progress",
       [(py "data", VStr (py "Error: " ++ join (py "; ") (errors.*2)));
        (py "partial", VStr []);
        (py "percent", VInt 0);
        (py "errors", VDict (prod_map id VStr <$> errors))])],
     w)
  /\ errors.*1 = violated_fields (text_fields data).
Proof.
  intros Hkey Hbad errors. subst errors.
  split; [|apply validate_reports_all].
  pose proof (validate_valid_iff (text_fields data)) as Hv.
  rewrite bool_decide_eq_false_2 in Hv by exact Hbad.
  unfold handle_generation. rewrite Hkey.
  destruct (validate_form_data (text_fields data)) as [is_valid errors].
  simpl in Hv. subst is_valid. reflexivity.
Qed.

Lemma invalid_form_rejected_witness :
  let data := Job {[ py "product_name" := py "Lamp";
                     py "keywords" := repeat 107%N 201 ]} true in
  let errors := (validate_form_data (text_fields data)).2 in
  handle_generation plain_table (Config true true) (Some (py "sk-live")) data
    ImageThreadFirst (Clock 0 1 0 1) StreamEnd (ImageUrl (py "https://img/1"))
    fresh_world
  = ([(py "progress",
       [(py "data", VStr (py "Error: " ++ join (py "; ") (errors.*2)));
        (py "partial", VStr []);
        (py "percent", VInt 0);
        (py "errors", VDict (prod_map id VStr <$> errors))])],
     fresh_world)
  /\ errors.*1 = violated_fields (text_fields data).
Proof.
  intros data.
  apply (invalid_form_rejected plain_table (Config true true)
           (Some (py "sk-live")) data ImageThreadFirst (Clock 0 1 0 1)
           StreamEnd (ImageUrl (py "https://img/1")) fresh_world).
  - reflexivity.
  - vm_compute. discriminate.
Defined.

(** X24: when no image is to be generated, because the job does not ask
    for one or because image generation is disabled by configuration, a
    valid job is the text generation and nothing else: every event of
    the generator is relayed as a progress event, no notice is added, no
    image event is emitted, and the state is the one the generator
    leaves. *)
Theorem job_without_image_is_text_only (unicode_lower : N -> pystr)
    (cfg : config) (api_key : option pystr) (data : job) (sched : schedule)
    (t : clock) (response : stream) (image_answer : image_result)
    (w : world) :
  api_key_configured api_key = true ->
  violated_fields (text_fields data) = [] ->
  generate_image data && ENABLE_IMAGE_GENERATION cfg = false ->
  let text :=
    generate_product_description unicode_lower (text_fields data)
      DEFAULT_MODEL 600 (Qmake 7 10) (ENABLE_CACHING cfg) (text_get t)
      (text_set t) response w in
  handle_generation unicode_lower cfg api_key data sched t response
    image_answer w
  = (pair (py "progress") <$> text.1, text.2).
Proof.
  intros Hkey Hvalid Hoff text. subst text. unfold handle_generation.
  rewrite Hkey.
  pose proof (validate_valid_iff (text_fields data)) as Hv.
  rewrite Hvalid in Hv.
  destruct (validate_form_data (text_fields data)) as [is_valid errors].
  simpl in Hv. subst is_valid. cbn [negb]. cbv zeta.
  assert ((if generate_image data && negb (ENABLE_IMAGE_GENERATION cfg)
           then false else generate_image data) = false) as ->.
  { destruct (generate_image data), (ENABLE_IMAGE_GENERATION cfg);
      try reflexivity; discriminate. }
  destruct (generate_product_description _ _ _ _ _ _ _ _ _ w)
    as [events w1].
  rewrite forward_without_image.
  destruct sched; simpl; [reflexivity | now rewrite app_nil_r].
Qed.

Lemma job_without_image_is_text_only_witness :
  let data := Job {[ py "product_name" := py "Lamp" ]} true in
  let text :=
    generate_product_description plain_table (text_fields data)
      DEFAULT_MODEL 600 (Qmake 7 10) true 0 1
      (StreamChunk (py "Hi") StreamEnd) fresh_world in
  handle_generation plain_table (Config true false) (Some (py "sk-live"))
    data ImageThreadFirst (Clock 0 1 0 1) (StreamChunk (py "Hi") StreamEnd)
    (ImageUrl (py "https://img/1")) fresh_world
  = (pair (py "progress") <$> text.1, text.2).
Proof.
  intros data.
  apply (job_without_image_is_text_only plain_table (Config true false)
           (Some (py "sk-live")) data ImageThreadFirst (Clock 0 1 0 1)
           (StreamChunk (py "Hi") StreamEnd) (ImageUrl (py "https://img/1"))
           fresh_world); vm_compute; reflexivity.
Defined.

(** X25: [handle_regenerate_image] rejects a request without reaching
    the provider when the credential is not configured or when the
    product name is blank after sanitizing: it emits a single
    image_progress event with percent 0 and the error flag, and leaves
    the state as it was. *)
Theorem regenerate_rejects_without_call (unicode_lower : N -> pystr)
    (api_key : option pystr) (data : gmap pystr pystr) (t_get t_set : Z)
    (image_answer : image_result) (w : world) :
  api_key_configured api_key = false
  \/ strip (sanitize_prompt_input (field_value data (py "product_name"))) = [] ->
  let r := handle_regenerate_image unicode_lower api_key data t_get t_set
             image_answer w in
  r.2 = w
  /\ exists status,
       r.1 = [(py "image_progress",
               [(py "status", VStr status);
                (py "percent", VInt 0);
                (py "error", VBool true)])].
Proof.
  intros H r. subst r. unfold handle_regenerate_image, field_value in *.
  destruct (api_key_configured api_key); simpl.
  - destruct H as [H|H]; [discriminate|]. rewrite H. simpl. eauto.
  - eauto.
Qed.

Lemma regenerate_rejects_without_call_witness :
  let r := handle_regenerate_image plain_table (Some (py "sk-live"))
             {[ py "product_name" := py " system: " ]} 0 1
             (ImageUrl (py "https://img/1")) fresh_world in
  r.2 = fresh_world
  /\ exists status,
       r.1 = [(py "image_progress",
               [(py "status", VStr status);
                (py "percent", VInt 0);
                (py "error", VBool true)])].
Proof.
  apply (regenerate_rejects_without_call plain_table (Some (py "sk-live"))
           {[ py "product_name" := py " system: " ]} 0 1
           (ImageUrl (py "https://img/1")) fresh_world).
  right. vm_compute. reflexivity.
Defined.

Section SharedImageCache.

Variable unicode_lower : N -> pystr.

Lemma unseen_image_not_cached (name model size quality : pystr) (t_get : Z)
    (w : world) :
  cache (the_cache w)
    !! image_key (sanitize_prompt_input name) model size quality = None ->
  takes_cached_image name model size quality t_get w = false.
Proof.
  intros H. unfold takes_cached_image. now rewrite (get_unseen _ _ _ H).
Qed.

(** After a job with an image that was not cached before, the URL the
    provider returned is in the cache, whichever way the image thread
    and the text stream were scheduled. *)
Lemma job_caches_image (cfg : config) (api_key : option pystr) (data : job)
    (sched : schedule) (t : clock) (response : stream) (url : pystr)
    (w : world) :
  api_key_configured api_key = true ->
  violated_fields (text_fields data) = [] ->
  generate_image data = true ->
  ENABLE_IMAGE_GENERATION cfg = true ->
  let name :=
    strip (sanitize_prompt_input
             (field_value (text_fields data) (py "product_name"))) in
  let key := image_key (sanitize_prompt_input name) DEFAULT_IMAGE_MODEL
               (py "1024x1024") (py "standard") in
  cache (the_cache w) !! key = None ->
  cache (the_cache (handle_generation unicode_lower cfg api_key data sched t
                      response (ImageUrl url) w).2) !! key
  = Some (Entry url (image_set t + default_expiry (the_cache w))).
Proof.
  intros Hkey Hvalid Himg Hen name key Hunseen.
  rewrite (job_with_image_result unicode_lower cfg api_key data sched t
             response (ImageUrl url) w Hkey Hvalid Himg Hen).
  cbv zeta. fold name. destruct sched; cbn [snd].
  - rewrite generation_keeps_other_keys
      by (intros E; symmetry in E; revert E;
          apply description_key_not_image_key).
    rewrite image_generating_result
      by (now apply unseen_image_not_cached).
    cbv zeta. cbn [snd the_cache set cache]. fold key.
    rewrite lookup_insert_eq. now rewrite get_keeps_default_expiry.
  - set (w1 := (generate_product_description unicode_lower (text_fields data)
                  DEFAULT_MODEL 600 (Qmake 7 10) (ENABLE_CACHING cfg)
                  (text_get t) (text_set t) response w).2).
    assert (cache (the_cache w1) !! key = None) as Hunseen1.
    { unfold w1. rewrite generation_keeps_other_keys; [exact Hunseen|].
      intros E. symmetry in E. revert E.
      apply description_key_not_image_key. }
    assert (default_expiry (the_cache w1) = default_expiry (the_cache w))
      as Hexp by apply generation_keeps_default_expiry.
    rewrite image_generating_result
      by (now apply unseen_image_not_cached).
    cbv zeta. cbn [snd the_cache set cache]. fold key.
    rewrite lookup_insert_eq. now rewrite get_keeps_default_expiry, Hexp.
Qed.

End SharedImageCache.

(** X26: the two handlers share the image namespace of the cache.  Take
    a valid job with an image (credential configured, image generation
    enabled) whose product name is not blank after sanitizing and
    stripping, whose image was not cached before, and for which the
    provider returned a non-empty URL.  A regenerate-image request for
    the same product name that starts before the entry expires is then
    served from the cache: three image_progress events, the last one
    with that URL, and the state is left as the job left it, so the
    provider is not called again.  (A name that is blank after
    sanitizing, such as "system:", passes the form check but is refused
    by the regenerate handler.) *)
Theorem regenerate_served_from_job_cache (unicode_lower : N -> pystr)
    (cfg : config) (api_key : option pystr) (data : job) (sched : schedule)
    (t : clock) (response : stream) (url : pystr) (t_get t_set : Z)
    (image_answer : image_result) (w : world) :
  api_key_configured api_key = true ->
  violated_fields (text_fields data) = [] ->
  generate_image data = true ->
  ENABLE_IMAGE_GENERATION cfg = true ->
  let name :=
    strip (sanitize_prompt_input
             (field_value (text_fields data) (py "product_name"))) in
  name <> [] ->
  cache (the_cache w)
    !! image_key (sanitize_prompt_input name) DEFAULT_IMAGE_MODEL
         (py "1024x1024") (py "standard") = None ->
  url <> [] ->
  t_get <= image_set t + default_expiry (the_cache w) ->
  let job := handle_generation unicode_lower cfg api_key data sched t
               response (ImageUrl url) w in
  let again := handle_regenerate_image unicode_lower api_key
                 (text_fields data) t_get t_set image_answer job.2 in
  again.1 = pair (py "image_progress") <$> image_cached_updates url
  /\ again.2 = job.2.
Proof.
  intros Hkey Hvalid Himg Hen name Hname Hunseen Hurl Hle job again.
  pose proof (job_caches_image unicode_lower cfg api_key data sched t
                response url w Hkey Hvalid Himg Hen Hunseen) as Hcached.
  fold name in Hcached. fold job in Hcached.
  subst again. unfold handle_regenerate_image.
  rewrite Hkey. cbn [negb]. cbv zeta.
  change (default [] (text_fields data !! py "product_name"))
    with (field_value (text_fields data) (py "product_name")).
  fold name. rewrite (truthy_nonempty _ Hname). cbn [negb].
  rewrite (image_from_cache unicode_lower name DEFAULT_IMAGE_MODEL
             (py "1024x1024") (py "standard") t_get t_set image_answer job.2
             _ Hcached Hle Hurl).
  auto.
Qed.

Lemma regenerate_served_from_job_cache_witness :
  let data := Job {[ py "product_name" := py "Lamp" ]} true in
  let job := handle_generation plain_table (Config true true)
               (Some (py "sk-live")) data ImageThreadLast (Clock 0 1 2 3)
               (StreamChunk (py "Hi") StreamEnd) (ImageUrl (py "https://img/1"))
               fresh_world in
  let again := handle_regenerate_image plain_table (Some (py "sk-live"))
                 (text_fields data) 3000 3001 (ImageUrl (py "https://img/2"))
                 job.2 in
  again.1 = pair (py "image_progress")
            <$> image_cached_updates (py "https://img/1")
  /\ again.2 = job.2.
Proof.
  intros data.
  apply (regenerate_served_from_job_cache plain_table (Config true true)
           (Some (py "sk-live")) data ImageThreadLast (Clock 0 1 2 3)
           (StreamChunk (py "Hi") StreamEnd) (py "https://img/1") 3000 3001
           (ImageUrl (py "https://img/2")) fresh_world);
    try (vm_compute; reflexivity); vm_compute; discriminate.
Defined.

(** X27: the terminal event of a text generation that fails carries the
    message of the classification behind "Error: ", the text streamed so
    far, percent 0, the error flag, and the details of the
    classification, among them the text of the exception under
    original_error. *)
Theorem failed_generation_terminal_event (unicode_lower : N -> pystr)
    (product_info : gmap pystr pystr) (model : pystr) (max_tokens : Z)
    (temperature : Q) (use_cache : bool) (t_get t_set : Z)
    (response : stream) (w : world) (e : exn) :
  takes_cached_path product_info model use_cache t_get w = false ->
  stream_failure response = Some e ->
  last (generate_product_description unicode_lower product_info model
          max_tokens temperature use_cache t_get t_set response w).1
  = Some [(py "data",
           VStr (py "Error: " ++ (handle_openai_error unicode_lower e).1));
          (py "partial", VStr (streamed_text response));
          (py "percent", VInt 0);
          (py "error", VBool true);
          (py "error_details",
           VDict (handle_openai_error unicode_lower e).2)]
  /\ dict_get (py "original_error") (handle_openai_error unicode_lower e).2
     = Some (VStr (message e)).
Proof.
  intros Hpath Hfail. split; [now apply failed_stream_last_event|].
  unfold handle_openai_error.
  now destruct (classify (type_name e) (lower unicode_lower (message e))).
Qed.

Lemma failed_generation_terminal_event_witness :
  let info : gmap pystr pystr := {[ py "product_name" := py "Lamp" ]} in
  let e := Exn (py "APIError") (py "Request timed out") in
  let response := StreamChunk (py "Hel") (StreamRaise e) in
  last (generate_product_description plain_table info DEFAULT_MODEL 600
          (Qmake 7 10) true 0 1 response fresh_world).1
  = Some [(py "data",
           VStr (py "Error: " ++ (handle_openai_error plain_table e).1));
          (py "partial", VStr (streamed_text response));
          (py "percent", VInt 0);
          (py "error", VBool true);
          (py "error_details", VDict (handle_openai_error plain_table e).2)]
  /\ dict_get (py "original_error") (handle_openai_error plain_table e).2
     = Some (VStr (message e)).
Proof.
  intros info e response.
  apply (failed_generation_terminal_event plain_table info DEFAULT_MODEL 600
           (Qmake 7 10) true 0 1 response fresh_world e);
    vm_compute; reflexivity.
Defined.

(** X28: two consecutive identical text requests with caching on: when
    the first one finds nothing cached, streams a non-empty text to its
    end, and the second one starts before the entry expires, the second
    one yields the two events of the cache-hit path with the text of the
    first, leaves the state as the first one left it, and the provider
    has been called once in all. *)
Theorem consecutive_requests_call_provider_once (unicode_lower : N -> pystr)
    (product_info : gmap pystr pystr) (model : pystr) (max_tokens : Z)
    (temperature : Q) (t_get1 t_set1 t_get2 t_set2 : Z)
    (response1 response2 : stream) (w : world) :
  cache (the_cache w) !! description_key (read_fields product_info) model
    = None ->
  stream_failure response1 = None ->
  streamed_text response1 <> [] ->
  t_get2 <= t_set1 + default_expiry (the_cache w) ->
  let run := generate_product_description unicode_lower product_info model
               max_tokens temperature true in
  let first := run t_get1 t_set1 response1 w in
  let second := run t_get2 t_set2 response2 first.2 in
  second.1 = cached_events (streamed_text response1)
  /\ second.2 = first.2
  /\ length (chat_calls second.2) = S (length (chat_calls w)).
Proof. apply second_request_served_from_cache. Qed.

Lemma consecutive_requests_call_provider_once_witness :
  let info : gmap pystr pystr := {[ py "product_name" := py "Lamp" ]} in
  let run := generate_product_description plain_table info DEFAULT_MODEL 600
               (Qmake 7 10) true in
  let first := run 0 1 (StreamChunk (py "Hi") StreamEnd) fresh_world in
  let second := run 3000 3001 (StreamChunk (py "Ho") StreamEnd) first.2 in
  second.1 = cached_events (streamed_text (StreamChunk (py "Hi") StreamEnd))
  /\ second.2 = first.2
  /\ length (chat_calls second.2) = S (length (chat_calls fresh_world)).
Proof.
  intros info.
  apply (consecutive_requests_call_provider_once plain_table info
           DEFAULT_MODEL 600 (Qmake 7 10) 0 1 3000 3001
           (StreamChunk (py "Hi") StreamEnd)
           (StreamChunk (py "Ho") StreamEnd) fresh_world).
  - vm_compute. reflexivity.
  - reflexivity.
  - discriminate.
  - simpl. lia.
Defined.
